(** * Pix2PixHD virtual-staining notebook: a shallow embedding of [solution.py]

    The notebook is a top-level Python script: every statement reads and
    writes the module namespace, mutates the option object [opt], calls into
    imported collaborators (the GAN library, numpy, tifffile, scikit-image,
    cellpose) and may raise.  The embedding keeps exactly that shape: a state
    and exception monad over the module namespace, the attribute dictionary of
    [opt], the numpy arrays the notebook allocates, the file system and the
    ordered trace of calls that leave the notebook. *)

From stdpp Require Import gmap strings list.
From Stdlib Require Import ZArith QArith OrderedTypeEx Sorted.
Set Warnings "-register-all".
Close Scope Q_scope.

(** ** Python values, exceptions and external events *)

(** A file-system path, as the list of its components.  [str] paths and
    [pathlib.Path] objects are both held in this form. *)
Definition path := list string.

(** A float64 score as a metric reports it. *)
Inductive fscore :=
| Finite (q : Q)
| PosInf
| NegInf
| NaN.

(** A numpy array: its shape and its data in row-major order. *)
Record ndarray := mkArr { shape : list nat; data : list Q }.

(** [VArr] is a reference to an array the notebook writes into; [VImg] is an
    array that is only ever read (what [imread] returns); [VView l i] is the
    view [a[i]] that iteration over the array at [l] yields. *)
Inductive value :=
| VNone
| VBool (b : bool)
| VInt (n : Z)
| VFloat (x : fscore)
| VStr (s : string)
| VPath (p : path)
| VList (vs : list value)
| VDict (kvs : list (string * value))
| VArr (l : nat)
| VImg (a : ndarray)
| VView (l : nat) (i : nat)
| VObj (cls : string).

Inductive exn :=
| NameError (name : string)
| AttributeError (attr : string)
| AssertionError (msg : string)
| TypeError (msg : string)
| ValueError (msg : string)
| IndexError (msg : string)
| FileNotFoundError (p : path)
| OSError (msg : string)
| SyntaxError (msg : string)
| MemoryError
| KeyboardInterrupt
| SystemExit.

Inductive event :=
| EvCall (fn : string) (args : list value)
| EvPrint (fmt : string) (args : list value).

(** What a fallible primitive of the world hands back. *)
Inductive result (A : Type) :=
| Returns (a : A)
| Raises (e : exn).
Arguments Returns {A} a.
Arguments Raises {A} e.

(** ** numpy arrays, files and the interpreter state *)

Record file := mkFile { fpath : path; fimage : option ndarray }.

Record metric_row := mkRow { pearson_nuc : fscore; SSIM_nuc : fscore; psnr_nuc : fscore }.

Record state := mkState {
  globals : gmap string value;
  opt : gmap string value;
  heap : list ndarray;
  fs : list file;
  test_metrics : gmap nat metric_row;
  trace : list event
}.

Definition set_globals (f : gmap string value → gmap string value) (s : state) : state :=
  mkState (f (globals s)) (opt s) (heap s) (fs s) (test_metrics s) (trace s).
Definition set_opt (f : gmap string value → gmap string value) (s : state) : state :=
  mkState (globals s) (f (opt s)) (heap s) (fs s) (test_metrics s) (trace s).
Definition set_heap (f : list ndarray → list ndarray) (s : state) : state :=
  mkState (globals s) (opt s) (f (heap s)) (fs s) (test_metrics s) (trace s).
Definition set_fs (f : list file → list file) (s : state) : state :=
  mkState (globals s) (opt s) (heap s) (f (fs s)) (test_metrics s) (trace s).
Definition set_test_metrics (f : gmap nat metric_row → gmap nat metric_row) (s : state) : state :=
  mkState (globals s) (opt s) (heap s) (fs s) (f (test_metrics s)) (trace s).
Definition set_trace (f : list event → list event) (s : state) : state :=
  mkState (globals s) (opt s) (heap s) (fs s) (test_metrics s) (f (trace s)).

(** The state of a freshly started kernel over a given file system. *)
Definition fresh (files : list file) : state := mkState ∅ ∅ [] files ∅ [].

(** ** The state and exception monad *)

Inductive outcome (A : Type) :=
| Ok (a : A) (s : state)
| Raise (e : exn) (s : state).
Arguments Ok {A} a s.
Arguments Raise {A} e s.

Definition M (A : Type) : Type := state → outcome A.

Definition ret {A} (a : A) : M A := λ s, Ok a s.
Definition bind {A B} (m : M A) (k : A → M B) : M B :=
  λ s, match m s with
       | Ok a s' => k a s'
       | Raise e s' => Raise e s'
       end.
Definition raise {A} (e : exn) : M A := λ s, Raise e s.

Declare Scope py_scope.
Notation "x ← y ; z" := (bind y (λ x, z)) (only parsing) : py_scope.
Notation "y ;; z" := (bind y (λ _, z)) (only parsing) : py_scope.
Open Scope py_scope.

(** [try: body / except: handler] with a bare [except]: whatever was raised is
    discarded and the handler runs in the state the body left behind. *)
Definition try_except {A} (body handler : M A) : M A :=
  λ s, match body s with
       | Ok a s' => Ok a s'
       | Raise _ s' => handler s'
       end.

Definition final_state {A} (o : outcome A) : state :=
  match o with Ok _ s => s | Raise _ s => s end.
Definition raised {A} (o : outcome A) : option exn :=
  match o with Ok _ _ => None | Raise e _ => Some e end.

(** ** Statements *)

Definition gets {A} (f : state → A) : M A := λ s, Ok (f s) s.
Definition modify (f : state → state) : M unit := λ s, Ok tt (f s).

Definition name (x : string) : M value :=
  g ← gets globals;
  match g !! x with
  | Some v => ret v
  | None => raise (NameError x)
  end.
Definition assign (x : string) (v : value) : M unit :=
  modify (set_globals <[x:=v]>).
Definition emit (e : event) : M unit :=
  modify (set_trace (λ t, t ++ [e])).

(** [opt.a] and [opt.a = v]. *)
Definition getattr (a : string) : M value :=
  _ ← name "opt";
  o ← gets opt;
  match o !! a with
  | Some v => ret v
  | None => raise (AttributeError a)
  end.
Definition setattr (a : string) (v : value) : M unit :=
  _ ← name "opt";
  modify (set_opt <[a:=v]>).

(** [import x] / [from m import x]: the name is bound to the collaborator. *)
Definition import_ (x : string) : M unit := assign x (VObj x).
Fixpoint imports (xs : list string) : M unit :=
  match xs with
  | [] => ret tt
  | x :: xs' => import_ x ;; imports xs'
  end.

(** The values of a list of names, left to right. *)
Fixpoint names (xs : list string) : M (list value) :=
  match xs with
  | [] => ret []
  | x :: xs' => v ← name x; vs ← names xs'; ret (v :: vs)
  end.

(** A call that leaves the notebook: the callee's name is looked up, then the
    arguments are evaluated, the call is recorded, and the collaborator hands
    back an object. *)
Definition call (callee fn : string) (args : M (list value)) (res : value) : M value :=
  _ ← name callee;
  vs ← args;
  emit (EvCall fn vs) ;;
  ret res.

(** [d[k] = v] on a dict held in the module namespace; insertion order is kept. *)
Fixpoint dict_put (k : string) (v : value) (kvs : list (string * value)) : list (string * value) :=
  match kvs with
  | [] => [(k, v)]
  | (k', v') :: rest => if String.eqb k k' then (k, v) :: rest else (k', v') :: dict_put k v rest
  end.
Definition dict_setitem (d k : string) (v : value) : M unit :=
  dv ← name d;
  match dv with
  | VDict kvs => assign d (VDict (dict_put k v kvs))
  | _ => raise (TypeError "object does not support item assignment")
  end.

(** [opt.__dict__.update(d)]: every key of [d], dashes included, becomes a key
    of the attribute dictionary. *)
Definition dict_update (kvs : list (string * value)) (m : gmap string value) : gmap string value :=
  foldl (λ acc kv, <[kv.1 := kv.2]> acc) m kvs.
Definition opt_update (d : string) : M unit :=
  _ ← name "opt";
  dv ← name d;
  match dv with
  | VDict kvs => modify (set_opt (dict_update kvs))
  | _ => raise (TypeError "object is not iterable")
  end.

(** [Path("~/...").expanduser()]. *)
Definition expanduser (home : path) (p : path) : path :=
  match p with
  | "~" :: rest => home ++ rest
  | _ => p
  end.

Definition as_path (v : value) : M path :=
  match v with
  | VPath p => ret p
  | _ => raise (TypeError "expected str, bytes or os.PathLike object")
  end.

(** A value interpolated into an f-string that is used as one path
    component; the notebook only ever interpolates [str] values. *)
Definition component (v : value) : M string :=
  match v with
  | VStr c => ret c
  | _ => raise (TypeError "unsupported path component")
  end.

(** ** The world outside the notebook *)

Record world := mkWorld {
  (** the user's home directory, for [expanduser] *)
  home : path;
  (** the attributes [TrainOptions().parse()] and [TestOptions().parse()] return *)
  train_options : gmap string value;
  test_options : gmap string value;
  (** the builtin [int] on a [str] *)
  int_of_str : string → option Z;
  (** [np.loadtxt(p, delimiter=",", dtype=int)]: an integer array (nested
      [VList]s of [VInt], or a [VInt] for a 0-d array) or an exception *)
  loadtxt : path → result value;
  (** what [inference_model] and one cellpose command line leave on disk *)
  inference_writes : gmap string value → list file → list file;
  cellpose_writes : path → string → list file → list file;
  (** scikit-image and numpy metrics on two flattened images *)
  structural_similarity : list Q → list Q → fscore;
  corrcoef01 : list Q → list Q → fscore;
  peak_signal_noise_ratio : list Q → list Q → fscore
}.

(** * Part 1: set-up and training (lines 65-210) *)

Module Train.
Section Train.
Variable w : world.

(** Lines 66-97. *)
Definition imported : list string :=
  ["Path"; "os"; "torch"; "np"; "pd"; "tqdm"; "metrics"; "imread"; "imsave";
   "plt"; "TrainOptions"; "TestOptions"; "CreateDataLoader"; "create_model";
   "Visualizer"; "util"; "train_model"; "inference_model"; "sampling";
   "gen_segmentation_scores"; "SummaryWriter"].

(** [int(v)]. *)
Definition py_int (v : value) : M Z :=
  match v with
  | VInt n => ret n
  | VBool b => ret (if b then 1 else 0)%Z
  | VStr t =>
      match int_of_str w t with
      | Some n => ret n
      | None => raise (ValueError "invalid literal for int()")
      end
  | _ => raise (TypeError "int() argument must be a string or a real number")
  end.

(** Lines 100-110. *)
Definition setup_cell : M unit :=
  _ ← call "TrainOptions" "TrainOptions().parse" (ret []) VNone;
  modify (set_opt (λ _, train_options w)) ;;
  assign "opt" (VObj "opt") ;;
  _ ← call "util" "util.set_seed"
        (seed ← getattr "seed"; n ← py_int seed; ret [VInt n]) VNone;
  setattr "name" (VStr "dlmbl_vsnuclei") ;;
  _ ← name "Path";
  nm ← getattr "name";
  c ← component nm;
  setattr "checkpoints_dir"
    (VPath (expanduser (home w) ["~"; "data"; "04_image_translation"; c; "logs"])) ;;
  _ ← name "Path";
  assign "output_image_folder"
    (VPath (expanduser (home w) ["~"; "data"; "04_image_translation"; "tiff_files"])) ;;
  writer ← call "SummaryWriter" "SummaryWriter"
             (log_dir ← getattr "checkpoints_dir"; ret [log_dir]) (VObj "SummaryWriter");
  assign "writer" writer.

(** Lines 121-143. *)
Definition data_cell : M unit :=
  assign "dataset_opt" (VDict []) ;;
  folder ← name "output_image_folder";
  dict_setitem "dataset_opt" "--dataroot" folder ;;
  dict_setitem "dataset_opt" "--data_type" (VStr "16") ;;
  dict_setitem "dataset_opt" "--loadSize" (VStr "512") ;;
  dict_setitem "dataset_opt" "--input_nc" (VStr "1") ;;
  dict_setitem "dataset_opt" "--output_nc" (VStr "1") ;;
  dict_setitem "dataset_opt" "--resize_or_crop" (VStr "none") ;;
  dict_setitem "dataset_opt" "--target" (VStr "nuclei") ;;
  opt_update "dataset_opt" ;;
  loader ← call "CreateDataLoader" "CreateDataLoader" (names ["opt"]) (VObj "DataLoader");
  assign "train_dataloader" loader ;;
  ds ← call "train_dataloader" "train_dataloader.load_data" (ret []) (VObj "Dataset");
  assign "dataset_train" ds ;;
  loader ← name "train_dataloader";
  emit (EvPrint "Total Training Images = {len(train_dataloader)}" [loader]) ;;
  setattr "phase" (VStr "val") ;;
  loader ← call "CreateDataLoader" "CreateDataLoader" (names ["opt"]) (VObj "DataLoader");
  assign "val_dataloader" loader ;;
  ds ← call "val_dataloader" "val_dataloader.load_data" (ret []) (VObj "Dataset");
  assign "dataset_val" ds ;;
  loader ← name "val_dataloader";
  emit (EvPrint "Total Validation Images = {len(val_dataloader)}" [loader]).

(** Lines 152-183. *)
Definition model_cell : M unit :=
  assign "model_opt" (VDict []) ;;
  dict_setitem "model_opt" "--ngf" (VStr "64") ;;
  dict_setitem "model_opt" "--n_downsample_global" (VStr "4") ;;
  dict_setitem "model_opt" "--n_blocks_global" (VStr "9") ;;
  dict_setitem "model_opt" "--n_blocks_local" (VStr "3") ;;
  dict_setitem "model_opt" "--n_local_enhancers" (VStr "1") ;;
  dict_setitem "model_opt" "--num_D" (VStr "3") ;;
  dict_setitem "model_opt" "--n_layers_D" (VStr "3") ;;
  dict_setitem "model_opt" "--ndf" (VStr "32") ;;
  dict_setitem "model_opt" "--gpu_ids" (VStr "0") ;;
  dict_setitem "model_opt" "--norm" (VStr "instance") ;;
  dict_setitem "model_opt" "--use_dropout" (VStr EmptyString) ;;
  dict_setitem "model_opt" "--batchSize" (VStr "8") ;;
  opt_update "model_opt" ;;
  model ← call "create_model" "create_model" (names ["opt"]) (VObj "Pix2PixHDModel");
  assign "phase2nuclei_model" model ;;
  _ ← name "phase2nuclei_model";
  _ ← name "phase2nuclei_model";
  assign "optimizer_G" (VObj "optimizer_G") ;;
  assign "optimizer_D" (VObj "optimizer_D") ;;
  vis ← call "Visualizer" "Visualizer" (names ["opt"]) (VObj "Visualizer");
  assign "visualizer" vis.

(** [a, b = v]. *)
Definition unpack2 (v : value) : M (value * value) :=
  match v with
  | VList [a; b] => ret (a, b)
  | VList [] | VList [_] => raise (ValueError "not enough values to unpack (expected 2)")
  | VList _ => raise (ValueError "too many values to unpack (expected 2)")
  | _ => raise (TypeError "iteration over a 0-d array")
  end.

(** One [%d] conversion. *)
Definition percent_d (v : value) : M value :=
  match v with
  | VInt n => ret (VInt n)
  | VBool b => ret (VInt (if b then 1 else 0)%Z)
  | VList [VInt n] => ret (VInt n)
  | _ => raise (TypeError "%d format: a real number is required")
  end.

Definition np_loadtxt (arg : string) : M value :=
  _ ← name "np";
  v ← name arg;
  p ← as_path v;
  emit (EvCall "np.loadtxt" [VPath p]) ;;
  match loadtxt w p with
  | Returns arr => ret arr
  | Raises e => raise e
  end.

(** Lines 187-196, with the value assigned to [opt.continue_train] on line
    187 as a parameter: the notebook writes [False]; a resume request is the
    same block with [True]. *)
Definition resume_block (continue_train : bool) : M unit :=
  setattr "continue_train" (VBool continue_train) ;;
  c ← getattr "continue_train";
  match c with
  | VBool true =>
      _ ← name "os";
      dir ← getattr "checkpoints_dir";
      d ← as_path dir;
      nm ← getattr "name";
      n ← component nm;
      assign "iter_path" (VPath (d ++ [n; "iter.txt"])) ;;
      try_except
        (arr ← np_loadtxt "iter_path";
         ab ← unpack2 arr;
         assign "start_epoch" ab.1 ;;
         assign "epoch_iter" ab.2)
        (assign "start_epoch" (VInt 1) ;;
         assign "epoch_iter" (VInt 0)) ;;
      a ← name "start_epoch";
      b ← name "epoch_iter";
      a' ← percent_d a;
      b' ← percent_d b;
      emit (EvPrint "Resuming from epoch %d at iteration %d" [a'; b'])
  | _ =>
      assign "start_epoch" (VInt 1) ;;
      assign "epoch_iter" (VInt 0)
  end.

(** Lines 198-210: the callee, then the arguments left to right, then the call. *)
Definition train_call : M unit :=
  _ ← name "train_model";
  args ← names ["opt"; "phase2nuclei_model"; "visualizer"; "dataset_train";
                "dataset_val"; "optimizer_G"; "optimizer_D"; "start_epoch";
                "epoch_iter"; "iter_path"; "writer"];
  emit (EvCall "train_model" args).

(** Everything that runs before line 187 in a fresh kernel. *)
Definition prelude : M unit :=
  imports imported ;; setup_cell ;; data_cell ;; model_cell.

(** The notebook as written (line 187 assigns [False]). *)
Definition training : M unit := resume_block false ;; train_call.

(** The same lines under a resume request. *)
Definition resumed_training : M unit := resume_block true ;; train_call.

End Train.
End Train.

(** * numpy: shapes, broadcasting assignment and slices *)

Module Np.

Definition size (sh : list nat) : nat := foldr Nat.mul 1 sh.

(** [np.zeros(sh)]. *)
Definition zeros (sh : list nat) : ndarray := mkArr sh (replicate (size sh) 0%Q).

(** The first [count] consecutive blocks of [sz] elements of [l]. *)
Fixpoint chunks (sz count : nat) (l : list Q) : list (list Q) :=
  match count with
  | 0 => []
  | S c => take sz l :: chunks sz c (drop sz l)
  end.

(** Assignment drops unit axes on the left of the source for as long as the
    source has more axes than the destination. *)
Fixpoint strip_ones (extra : nat) (sh : list nat) : option (list nat) :=
  match extra, sh with
  | 0, _ => Some sh
  | S e, 1 :: sh' => strip_ones e sh'
  | S _, _ => None
  end.

(** Axis by axis, for shapes of the same rank: equal, or 1 in the source. *)
Fixpoint compatible (src dst : list nat) : bool :=
  match src, dst with
  | [], [] => true
  | s :: src', n :: dst' => ((s =? n) || (s =? 1)) && compatible src' dst'
  | _, _ => false
  end.

Definition aligned (src dst : list nat) : option (list nat) :=
  match strip_ones (length src - length dst) src with
  | Some src' => Some (replicate (length dst - length src') 1 ++ src')
  | None => None
  end.

(** Whether an array of shape [src] can be assigned to a slot of shape [dst]. *)
Definition assignable (src dst : list nat) : bool :=
  match aligned src dst with
  | Some src' => compatible src' dst
  | None => false
  end.

(** The source data repeated along its unit axes, for compatible shapes. *)
Fixpoint broadcast_data (src dst : list nat) (d : list Q) : list Q :=
  match src, dst with
  | s :: src', n :: dst' =>
      if s =? n
      then concat (map (broadcast_data src' dst') (chunks (size src') s d))
      else concat (replicate n (broadcast_data src' dst' d))
  | _, _ => d
  end.

Definition broadcast (v : ndarray) (dst : list nat) : option (list Q) :=
  match aligned (shape v) dst with
  | Some src' => if compatible src' dst then Some (broadcast_data src' dst (data v)) else None
  | None => None
  end.

(** [a[i] = v]. *)
Definition setitem (a : ndarray) (i : Z) (v : ndarray) : result ndarray :=
  match shape a with
  | [] => Raises (IndexError "too many indices for array")
  | n :: rest =>
      let j := if (i <? 0)%Z then (i + Z.of_nat n)%Z else i in
      if ((0 <=? j)%Z && (j <? Z.of_nat n)%Z)%bool
      then
        match broadcast v rest with
        | Some d =>
            let k := Z.to_nat j in
            let sz := size rest in
            Returns (mkArr (shape a) (take (k * sz) (data a) ++ d ++ drop (S k * sz) (data a)))
        | None => Raises (ValueError "could not broadcast input array")
        end
      else Raises (IndexError "index is out of bounds for axis 0")
  end.

(** The flattened data of [a[i]]. *)
Definition row (a : ndarray) (i : nat) : list Q :=
  take (size (tail (shape a))) (drop (i * size (tail (shape a))) (data a)).

End Np.

(** * Paths and the file system *)

Module Fs.

Definition ends_with (suffix s : string) : bool :=
  String.prefix (String.rev suffix) (String.rev s).

Definition contains (sub s : string) : bool :=
  match String.index 0 sub s with
  | Some _ => true
  | None => false
  end.

Definition basename (p : path) : string := List.last p EmptyString.

(** [p] lies strictly below [dir]. *)
Fixpoint below (dir p : path) : bool :=
  match dir, p with
  | [], _ :: _ => true
  | d :: dir', c :: p' => String.eqb d c && below dir' p'
  | _, _ => false
  end.

(** [dir.glob("**/<pattern>")] for a pattern on the file name. *)
Definition rglob (pattern : string → bool) (dir : path) (files : list file) : list path :=
  map fpath (List.filter (λ f, below dir (fpath f) && pattern (basename (fpath f))) files).

(** Paths compare component by component. *)
Fixpoint path_leb (p q : path) : bool :=
  match p, q with
  | [], _ => true
  | _ :: _, [] => false
  | a :: p', b :: q' =>
      match String.compare a b with
      | Lt => true
      | Gt => false
      | Eq => path_leb p' q'
      end
  end.

Fixpoint insert_sorted (p : path) (l : list path) : list path :=
  match l with
  | [] => [p]
  | q :: l' => if path_leb p q then p :: q :: l' else q :: insert_sorted p l'
  end.

Definition sorted (l : list path) : list path := foldr insert_sorted [] l.

Definition find_file (p : path) (files : list file) : option file :=
  List.find (λ f, bool_decide (fpath f = p)) files.

End Fs.

(** ** Statements over arrays and files *)

Definition len (v : value) : M nat :=
  match v with
  | VList vs => ret (length vs)
  | VDict kvs => ret (length kvs)
  | _ => raise (TypeError "object has no len()")
  end.

Definition as_list (v : value) : M (list value) :=
  match v with
  | VList vs => ret vs
  | _ => raise (TypeError "object is not iterable")
  end.

(** [assert b, msg]. *)
Definition py_assert (b : bool) (msg : string) : M unit :=
  if b then ret tt else raise (AssertionError msg).

(** A new array object; its reference is its position in the heap. *)
Definition alloc (a : ndarray) : M value :=
  h ← gets heap;
  modify (set_heap (λ h, h ++ [a])) ;;
  ret (VArr (length h)).

Definition deref (v : value) : M ndarray :=
  match v with
  | VArr l =>
      h ← gets heap;
      match h !! l with
      | Some a => ret a
      | None => raise (ValueError "no such array")
      end
  | VImg a => ret a
  | _ => raise (TypeError "not an array")
  end.

(** The flattened data behind [a[i]], as iteration over [a] yields it. *)
Definition view_data (v : value) : M (list Q) :=
  match v with
  | VView l i =>
      h ← gets heap;
      match h !! l with
      | Some a => ret (Np.row a i)
      | None => raise (ValueError "no such array")
      end
  | _ => raise (TypeError "not an array view")
  end.

(** [sorted([i for i in dir.glob("**/<pattern>")])]. *)
Definition glob_sorted (pattern : string → bool) (dir : path) : M value :=
  files ← gets fs;
  ret (VList (map VPath (Fs.sorted (Fs.rglob pattern dir files)))).

(** [imread(arg)]: the image the file holds. *)
Definition imread (arg : M value) : M value :=
  _ ← name "imread";
  v ← arg;
  p ← as_path v;
  emit (EvCall "imread" [VPath p]) ;;
  files ← gets fs;
  match Fs.find_file p files with
  | None => raise (FileNotFoundError p)
  | Some f =>
      match fimage f with
      | Some a => ret (VImg a)
      | None => raise (ValueError "not a TIFF file")
      end
  end.

(** [arr[idx] = val] for three module-level names: the right-hand side
    first, then the target and its index. *)
Definition store (arr idx val : string) : M unit :=
  src ← name val;
  dst ← name arr;
  i ← name idx;
  v ← deref src;
  a ← deref dst;
  match dst, i with
  | VArr l, VInt k =>
      match Np.setitem a k v with
      | Returns a' => modify (set_heap <[l := a']>)
      | Raises e => raise e
      end
  | _, _ => raise (IndexError "only integers are valid indices")
  end.

Fixpoint zip3 (a b c : list value) : list (value * value * value) :=
  match a, b, c with
  | x :: a', y :: b', z :: c' => (x, y, z) :: zip3 a' b' c'
  | _, _, _ => []
  end.

(** One notebook statement: either well-formed, with its effect, or text
    that Python does not parse. *)
Inductive stmt :=
| Stmt (m : M unit)
| Malformed (text : string).

Definition is_malformed (st : stmt) : bool :=
  match st with
  | Malformed _ => true
  | Stmt _ => false
  end.

(** Statements fed to the interpreter one after the other. *)
Fixpoint run_stmts (sts : list stmt) : M unit :=
  match sts with
  | [] => ret tt
  | Stmt m :: rest => m ;; run_stmts rest
  | Malformed text :: _ => raise (SyntaxError text)
  end.

(** A cell compiled as a whole before any of it runs. *)
Definition run_cell (sts : list stmt) : M unit :=
  match List.find is_malformed sts with
  | Some (Malformed text) => raise (SyntaxError text)
  | _ => run_stmts sts
  end.

(** * Parts 2-4: inference, evaluation and sampling (lines 248-603) *)

Module Evaluate.
Section Evaluate.
Variable w : world.

(** Lines 248-252. *)
Definition part2_cell : M unit :=
  assign "translation_task" (VStr "nuclei") ;;
  nm ← getattr "name";
  c ← component nm;
  assign "log_dir" (VPath ["~"; "data"; "04_image_translation"; "pretrained_GAN"; c]) ;;
  emit (EvCall "%reload_ext" [VStr "tensorboard"]) ;;
  emit (EvCall "%tensorboard" [VStr "--logdir {$log_dir}"]).

(** Lines 309-362. *)
Definition options_cell : M unit :=
  _ ← call "TestOptions" "TestOptions().parse" (ret [VBool false]) VNone;
  modify (set_opt (λ _, test_options w)) ;;
  assign "opt" (VObj "opt") ;;
  assign "dataset_opt" (VDict []) ;;
  folder ← name "output_image_folder";
  dict_setitem "dataset_opt" "--dataroot" folder ;;
  dict_setitem "dataset_opt" "--data_type" (VStr "16") ;;
  dict_setitem "dataset_opt" "--loadSize" (VStr "512") ;;
  dict_setitem "dataset_opt" "--input_nc" (VStr "1") ;;
  dict_setitem "dataset_opt" "--output_nc" (VStr "1") ;;
  dict_setitem "dataset_opt" "--resize_or_crop" (VStr "none") ;;
  task ← name "translation_task";
  dict_setitem "dataset_opt" "--target" task ;;
  opt_update "dataset_opt" ;;
  assign "model_opt" (VDict []) ;;
  dict_setitem "model_opt" "--ngf" (VStr "64") ;;
  dict_setitem "model_opt" "--n_downsample_global" (VStr "4") ;;
  dict_setitem "model_opt" "--n_blocks_global" (VStr "9") ;;
  dict_setitem "model_opt" "--n_blocks_local" (VStr "3") ;;
  dict_setitem "model_opt" "--n_local_enhancers" (VStr "1") ;;
  dict_setitem "model_opt" "--num_D" (VStr "3") ;;
  dict_setitem "model_opt" "--n_layers_D" (VStr "3") ;;
  dict_setitem "model_opt" "--ndf" (VStr "32") ;;
  dict_setitem "model_opt" "--gpu_ids" (VStr "0") ;;
  dict_setitem "model_opt" "--norm" (VStr "instance") ;;
  dict_setitem "model_opt" "--use_dropout" (VStr EmptyString) ;;
  dict_setitem "model_opt" "--batchSize" (VStr "8") ;;
  dict_setitem "model_opt" "--no_vgg_loss" (VStr EmptyString) ;;
  dict_setitem "model_opt" "--no_ganFeat_loss" (VStr EmptyString) ;;
  dict_setitem "model_opt" "--no_lsgan" (VStr EmptyString) ;;
  opt_update "model_opt" ;;
  assign "inference_opt" (VDict []) ;;
  task ← name "translation_task";
  c ← component task;
  setattr "name" (VStr ("dlmbl_vs" +:+ c)) ;;
  dict_setitem "inference_opt" "--how_many" (VStr "144") ;;
  nm ← getattr "name";
  c ← component nm;
  dict_setitem "inference_opt" "--checkpoints_dir"
    (VPath ["~"; "data"; "04_image_translation"; "pretrained_GAN"; c]) ;;
  nm ← getattr "name";
  c ← component nm;
  dict_setitem "inference_opt" "--results_dir"
    (VPath ["~"; "data"; "04_image_translation"; "pretrained_GAN"; c; "results"]) ;;
  dict_setitem "inference_opt" "--which_epoch" (VStr "latest") ;;
  dict_setitem "inference_opt" "--phase" (VStr "test") ;;
  opt_update "inference_opt" ;;
  setattr "nThreads" (VInt 1) ;;
  setattr "batchSize" (VInt 1) ;;
  setattr "serial_batches" (VBool true) ;;
  setattr "no_flip" (VBool true) ;;
  _ ← name "Path";
  rd ← getattr "results_dir";
  d ← as_path rd;
  emit (EvCall "Path.mkdir" [VPath d]).

(** Lines 365-373. *)
Definition inference_cell : M unit :=
  loader ← call "CreateDataLoader" "CreateDataLoader" (names ["opt"]) (VObj "DataLoader");
  assign "test_data_loader" loader ;;
  ds ← call "test_data_loader" "test_data_loader.load_data" (ret []) (VObj "Dataset");
  assign "test_dataset" ds ;;
  vis ← call "Visualizer" "Visualizer" (names ["opt"]) (VObj "Visualizer");
  assign "visualizer" vis ;;
  model ← call "create_model" "create_model" (names ["opt"]) (VObj "Pix2PixHDModel");
  assign "model" model ;;
  _ ← name "inference_model";
  args ← names ["test_dataset"; "opt"; "model"];
  emit (EvCall "inference_model" args) ;;
  o ← gets opt;
  modify (set_fs (inference_writes w o)).

(** Lines 376-390. *)
Definition gather_cell : M unit :=
  _ ← name "Path";
  rd ← getattr "results_dir";
  d ← as_path rd;
  v ← glob_sorted (Fs.ends_with ".tiff") d;
  assign "virtual_stain_paths" v ;;
  _ ← name "Path";
  folder ← name "output_image_folder";
  f ← as_path folder;
  task ← name "translation_task";
  c ← component task;
  v ← glob_sorted (Fs.ends_with ".tiff") (f ++ [c; "test"]);
  assign "target_stain_paths" v ;;
  _ ← name "Path";
  folder ← name "output_image_folder";
  f ← as_path folder;
  v ← glob_sorted (Fs.ends_with ".tiff") (f ++ ["input"; "test"]);
  assign "phase_paths" v ;;
  a ← name "virtual_stain_paths";
  na ← len a;
  b ← name "target_stain_paths";
  nb ← len b;
  ok ← (if na =? nb
        then c ← name "phase_paths"; nc ← len c; ret (nb =? nc)
        else ret false);
  py_assert ok "Number of images do not match.".

(** Lines 393-395. *)
Definition allocate_cell : M unit :=
  _ ← name "np";
  v ← name "virtual_stain_paths";
  n ← len v;
  a ← alloc (Np.zeros [n; 512; 512]);
  assign "virtual_stains" a ;;
  src ← name "virtual_stains";
  arr ← deref src;
  c ← alloc arr;
  assign "target_stains" c ;;
  src ← name "virtual_stains";
  arr ← deref src;
  c ← alloc arr;
  assign "phase_images" c.

(** Lines 397-406: the body of the loop for one zipped triple. *)
Definition load_body (index : nat) (item : value * value * value) : M unit :=
  assign "index" (VInt (Z.of_nat index)) ;;
  assign "v_path" item.1.1 ;;
  assign "t_path" item.1.2 ;;
  assign "p_path" item.2 ;;
  img ← imread (name "v_path");
  assign "virtual_stain" img ;;
  img ← imread (name "p_path");
  assign "phase_image" img ;;
  img ← imread (name "t_path");
  assign "target_stain" img ;;
  store "phase_images" "index" "phase_image" ;;
  store "target_stains" "index" "target_stain" ;;
  store "virtual_stains" "index" "virtual_stain".

Fixpoint load_loop (index : nat) (items : list (value * value * value)) : M unit :=
  match items with
  | [] => ret tt
  | item :: rest => load_body index item ;; load_loop (S index) rest
  end.

Definition load_cell : M unit :=
  _ ← name "tqdm";
  a ← name "virtual_stain_paths";
  la ← as_list a;
  b ← name "target_stain_paths";
  lb ← as_list b;
  c ← name "phase_paths";
  lc ← as_list c;
  load_loop 0 (zip3 la lb lc).

(** Lines 423-475: the two definitions of [visualise_results] and the empty frame. *)
Definition visualise_cell : M unit :=
  assign "visualise_results" (VObj "function") ;;
  assign "visualise_results" (VObj "function") ;;
  _ ← name "pd";
  assign "test_metrics" (VObj "DataFrame") ;;
  modify (set_test_metrics (λ _, ∅)).

Definition as_float (v : value) : M fscore :=
  match v with
  | VFloat x => ret x
  | _ => raise (TypeError "not a float")
  end.

(** The number of items iteration over an array yields. *)
Definition rows (a : ndarray) : M nat :=
  match shape a with
  | n :: _ => ret n
  | [] => raise (TypeError "iteration over a 0-d array")
  end.

(** Lines 486-499. *)
Fixpoint metrics_loop (lt lv i count : nat) : M unit :=
  match count with
  | 0 => ret tt
  | S count' =>
      assign "i" (VInt (Z.of_nat i)) ;;
      assign "target_image" (VView lt i) ;;
      assign "predicted_image" (VView lv i) ;;
      _ ← name "metrics";
      t ← name "target_image";
      p ← name "predicted_image";
      td ← view_data t;
      pd ← view_data p;
      emit (EvCall "metrics.structural_similarity" [t; p; VInt 1]) ;;
      assign "ssim_score" (VFloat (structural_similarity w td pd)) ;;
      _ ← name "np";
      t ← name "target_image";
      td ← view_data t;
      p ← name "predicted_image";
      pd ← view_data p;
      emit (EvCall "np.corrcoef" [t; p]) ;;
      assign "pearson_score" (VFloat (corrcoef01 w td pd)) ;;
      _ ← name "metrics";
      t ← name "target_image";
      p ← name "predicted_image";
      td ← view_data t;
      pd ← view_data p;
      emit (EvCall "metrics.peak_signal_noise_ratio" [t; p; VInt 1]) ;;
      assign "psnr_score" (VFloat (peak_signal_noise_ratio w td pd)) ;;
      ps ← name "pearson_score";
      ss ← name "ssim_score";
      pn ← name "psnr_score";
      _ ← name "test_metrics";
      _ ← name "i";
      x ← as_float ps;
      y ← as_float ss;
      z ← as_float pn;
      modify (set_test_metrics <[i := mkRow x y z]>) ;;
      metrics_loop lt lv (S i) count'
  end.

(** Lines 486-504. *)
Definition metrics_cell : M unit :=
  t ← name "target_stains";
  v ← name "virtual_stains";
  ta ← deref t;
  va ← deref v;
  nt ← rows ta;
  nv ← rows va;
  match t, v with
  | VArr lt, VArr lv => metrics_loop lt lv 0 (Nat.min nt nv)
  | _, _ => raise (TypeError "not an array")
  end ;;
  _ ← name "test_metrics";
  emit (EvCall "test_metrics.boxplot" []).

(** [$x] on an IPython shell line: the value of [x], or the text left as it
    is when [x] is not bound. *)
Definition expand (x : string) : M value :=
  g ← gets globals;
  ret (default (VStr ("$" +:+ x)) (g !! x)).

(** [!python -m cellpose --dir $dir --pretrained_model $model --chan 0 --save_tiff]. *)
Definition cellpose_run (dir model : string) : M unit :=
  d ← expand dir;
  m ← expand model;
  emit (EvCall "python -m cellpose" [d; m; VInt 0; VStr "--save_tiff"]) ;;
  match d, m with
  | VPath p, VStr pretrained => modify (set_fs (cellpose_writes w p pretrained))
  | _, _ => ret tt
  end.

Definition mask_pattern : string → bool := Fs.contains "_cp_masks.tif".

(** Lines 521-530. *)
Definition cellpose_stmts : list stmt :=
  [ Stmt (_ ← name "Path";
          rd ← getattr "results_dir";
          d ← as_path rd;
          assign "path_to_virtual_stain" (VPath d));
    Stmt (_ ← name "Path";
          folder ← name "output_image_folder";
          f ← as_path folder;
          assign "path_to_targets" (VPath (f ++ ["test"])));
    Stmt (assign "cellpose_model" (VStr "nuclei"));
    Stmt (cellpose_run "path_to_virtual_stain" "cellpose_model");
    Stmt (cellpose_run "path_to_virtual_stain" "cellpose_model");
    Stmt (pp ← name "path_to_predictions";
          d ← as_path pp;
          v ← glob_sorted mask_pattern d;
          assign "predicted_masks" v);
    Malformed "target_masks = sorted([ifor i in Path(path_to_targets).glob('**/*_cp_masks.tif*')])";
    Stmt (a ← name "predicted_masks";
          na ← len a;
          b ← name "target_masks";
          nb ← len b;
          py_assert (na =? nb) "Number of masks do not match.") ].

(** [l[i]]. *)
Definition getitem (l : value) (i : nat) : M value :=
  vs ← as_list l;
  match vs !! i with
  | Some v => ret v
  | None => raise (IndexError "list index out of range")
  end.

(** Lines 543-554, for [i] in [range(len(predicted_masks))]. *)
Fixpoint scoring_loop (i count : nat) : M unit :=
  match count with
  | 0 => ret tt
  | S count' =>
      assign "i" (VInt (Z.of_nat i)) ;;
      pm ← name "predicted_masks";
      p ← getitem pm i;
      q ← as_path p;
      assign "name" (VStr (Fs.basename q)) ;;
      m ← imread (pm ← name "predicted_masks"; getitem pm i);
      assign "virtual_stain_mask" m ;;
      m ← imread (tm ← name "target_masks"; getitem tm i);
      assign "fluorescence_mask" m ;;
      sets ← name "image_sets";
      l ← as_list sets;
      nm ← name "name";
      vm ← name "virtal_stain_mask";
      fm ← name "fluorescence_mask";
      assign "image_sets"
        (VList (l ++ [VDict [("Image", nm); ("Model", VStr "Pix2PixHD");
                             ("Virtual_Stain_Mask", vm); ("Fluorescence_Mask", fm)]])) ;;
      scoring_loop (S i) count'
  end.

(** Lines 535-570. *)
Definition scoring_cell : M unit :=
  _ ← name "pd";
  assign "results" (VObj "DataFrame") ;;
  assign "image_sets" (VList []) ;;
  pm ← name "predicted_masks";
  n ← len pm;
  scoring_loop 0 n ;;
  _ ← name "gen_segmentation_scores";
  sets ← name "image_sets";
  res ← name "results";
  nm ← getattr "name";
  c ← component nm;
  emit (EvCall "gen_segmentation_scores"
          [sets; res;
           VPath ["~"; "data"; "04_image_translation"; "pretrained_GAN"; c; "results"]]) ;;
  assign "results" (VObj "DataFrame") ;;
  assign "_" VNone ;;
  _ ← name "results";
  _ ← name "results";
  assign "mean_f1" (VObj "float") ;;
  _ ← name "results";
  assign "std_f1" (VObj "float") ;;
  _ ← name "np";
  m ← name "mean_f1";
  emit (EvPrint "Mean F1 Score: {np.round(mean_f1,2)}" [m]) ;;
  _ ← name "plt";
  _ ← name "results";
  emit (EvCall "plt.hist" []).

(** Lines 593-603. *)
Definition sampler_cell : M unit :=
  loader ← call "CreateDataLoader" "CreateDataLoader" (names ["opt"]) (VObj "DataLoader");
  assign "test_data_loader" loader ;;
  ds ← call "test_data_loader" "test_data_loader.load_data" (ret []) (VObj "Dataset");
  assign "test_dataset" ds ;;
  vis ← call "Visualizer" "Visualizer" (names ["opt"]) (VObj "Visualizer");
  assign "visualizer" vis ;;
  setattr "variational_inf_runs" (VInt 100) ;;
  nm ← getattr "name";
  c ← component nm;
  setattr "variation_inf_path"
    (VPath ["~"; "data"; "04_image_translation"; "pretrained_GAN"; c; "results"; "samples"]) ;;
  setattr "dropout_variation_inf" (VBool true) ;;
  model ← call "create_model" "create_model" (names ["opt"]) (VObj "Pix2PixHDModel");
  assign "model" model ;;
  _ ← name "sampling";
  args ← names ["test_dataset"; "opt"; "model"];
  emit (EvCall "sampling" args).

(** The evaluation as the cells come: gathering, loading, pixel metrics and
    the cellpose cell, the last one under either reading of its text. *)
Definition evaluation (cell : list stmt → M unit) : M unit :=
  gather_cell ;;
  allocate_cell ;;
  load_cell ;;
  visualise_cell ;;
  metrics_cell ;;
  cell cellpose_stmts ;;
  scoring_cell.

End Evaluate.
End Evaluate.

(** * The collaborators behind [inference_model] and [sampling]

    [GANs_MI2I.pix2pixHD.test_dlmbl] and the data loader are imported by the
    notebook and are not part of [solution.py]. *)

Module Runner.

Definition image := list Q.

Record example := mkExample { ex_id : string; ex_source : image; ex_target : image }.

Record sampled := mkSampled {
  s_id : string;
  s_samples : list image;
  s_uncertainty : image
}.

Definition truthy (v : option value) : bool :=
  match v with
  | Some (VBool b) => b
  | Some (VInt n) => negb (n =? 0)%Z
  | _ => false
  end.

Definition int_attr (v : option value) : nat :=
  match v with
  | Some (VInt n) => Z.to_nat n
  | _ => 0
  end.

Definition path_attr (v : option value) : path :=
  match v with
  | Some (VPath p) => p
  | _ => []
  end.

Definition qsum (xs : list Q) : Q := foldr Qplus 0%Q xs.
Definition mean (xs : list Q) : Q := (qsum xs / inject_Z (Z.of_nat (length xs)))%Q.
Definition variance (xs : list Q) : Q := mean (map (λ x, ((x - mean xs) * (x - mean xs))%Q) xs).

(** Pixel [j] of every sample, along the sample axis. *)
Definition along (j : nat) (samples : list image) : list Q :=
  map (λ smp, nth j smp 0%Q) samples.

Section Runner.
(** The external model service: one forward pass under given parameters,
    with stochastic regularization on or off, for one random draw. *)
Variable params : Type.
Variable forward : params → bool → nat → image → image.
(** The loader's reordering and flips when they are not switched off. *)
Variable shuffle : list example → list example.
Variable flip : example → example.
(** The path an output is persisted under, from the results directory and
    the identifier of the example. *)
Variable derived_path : path → string → path.

Fixpoint batches_of (fuel size : nat) (l : list example) : list (list example) :=
  match fuel, l with
  | S fuel', _ :: _ => take size l :: batches_of fuel' size (drop size l)
  | _, _ => []
  end.

(** Modelled from the spec: the external data loader of section 6 (the
    loader class [CreateDataLoader] is not in the source), a sized, ordered
    stream of batches; [serial_batches] switches shuffling off and [no_flip]
    switches flips off, as the comments on lines 360-361 say. *)
Definition load_data (opts : gmap string value) (dataset : list example) : list (list example) :=
  let ordered := if truthy (opts !! "serial_batches") then dataset else shuffle dataset in
  let flipped := if truthy (opts !! "no_flip") then ordered else map flip ordered in
  batches_of (length flipped) (int_attr (opts !! "batchSize")) flipped.

(** Modelled from the spec: the Inference Runner of section 4.4 (the function
    [inference] of [test_dlmbl] is not in the source): one deterministic
    forward pass per example of the stream, persisted under a path derived
    from the identifier; the parameters are handed back as they came. *)
Definition inference (opts : gmap string value) (θ : params) (dataset : list example)
  : list (path * image) * params :=
  (flat_map
     (λ batch, map (λ ex, (derived_path (path_attr (opts !! "results_dir")) (ex_id ex),
                           forward θ false 0 (ex_source ex))) batch)
     (load_data opts dataset),
   θ).

(** Modelled from the spec: the per-pixel dispersion of section 4.5, the
    variance across the sample axis. *)
Definition uncertainty_map (samples : list image) : image :=
  match samples with
  | [] => []
  | first :: _ => map (λ j, variance (along j samples)) (seq 0 (length first))
  end.

(** Modelled from the spec: the Stochastic Sampler of section 4.5 (the
    function [sampling] of [test_dlmbl] is not in the source): for the
    [k]-th example of the stream, [variational_inf_runs] forward passes, each
    with its own draw, with stochastic regularization as
    [dropout_variation_inf] says, reduced to the uncertainty map. *)
Definition sample_example (opts : gmap string value) (θ : params) (k : nat) (ex : example) : sampled :=
  let runs := int_attr (opts !! "variational_inf_runs") in
  let samples :=
    map (λ r, forward θ (truthy (opts !! "dropout_variation_inf")) (k * runs + r) (ex_source ex))
        (seq 0 runs) in
  mkSampled (ex_id ex) samples (uncertainty_map samples).

Definition sampling (opts : gmap string value) (θ : params) (dataset : list example) : list sampled :=
  imap (sample_example opts θ) (concat (load_data opts dataset)).

End Runner.
End Runner.


(** * Observations and invariants *)

(** A namespace written as the assignments made on top of a base map, most
    recent first. *)
Definition puts (l : list (string * value)) (m : gmap string value) : gmap string value :=
  foldr (λ kv acc, <[kv.1 := kv.2]> acc) m l.

Fixpoint assoc (x : string) (l : list (string * value)) : option value :=
  match l with
  | [] => None
  | (k, v) :: l' => if String.eqb k x then Some v else assoc x l'
  end.

(** Assigning a name drops what it was bound to before. *)
Fixpoint unbind (x : string) (l : list (string * value)) : list (string * value) :=
  match l with
  | [] => []
  | (k, v) :: l' => if String.eqb k x then unbind x l' else (k, v) :: unbind x l'
  end.

(** The checkpoint index file line 189 names once lines 105-107 ran. *)
Definition checkpoint_index (w : world) : path :=
  (home w ++ ["data"; "04_image_translation"; "dlmbl_vsnuclei"; "logs"])
    ++ ["dlmbl_vsnuclei"; "iter.txt"].

(** What lines 66-183 leave behind for the training cell. *)
Record ready (w : world) (s : state) : Prop := mkReady {
  ready_opt : globals s !! "opt" = Some (VObj "opt");
  ready_os : globals s !! "os" = Some (VObj "os");
  ready_np : globals s !! "np" = Some (VObj "np");
  ready_train_model : globals s !! "train_model" = Some (VObj "train_model");
  ready_model : globals s !! "phase2nuclei_model" = Some (VObj "Pix2PixHDModel");
  ready_visualizer : globals s !! "visualizer" = Some (VObj "Visualizer");
  ready_dataset_train : globals s !! "dataset_train" = Some (VObj "Dataset");
  ready_dataset_val : globals s !! "dataset_val" = Some (VObj "Dataset");
  ready_optimizer_G : globals s !! "optimizer_G" = Some (VObj "optimizer_G");
  ready_optimizer_D : globals s !! "optimizer_D" = Some (VObj "optimizer_D");
  ready_writer : globals s !! "writer" = Some (VObj "SummaryWriter");
  ready_checkpoints_dir :
    opt s !! "checkpoints_dir" =
      Some (VPath (home w ++ ["data"; "04_image_translation"; "dlmbl_vsnuclei"; "logs"]));
  ready_name : opt s !! "name" = Some (VStr "dlmbl_vsnuclei")
}.

(** Whether the body of the [try] on lines 190-191 raises: the read does, or
    what it returns does not unpack into two. *)
Definition read_fails (r : result value) : bool :=
  match r with
  | Raises _ => true
  | Returns (VList [_; _]) => false
  | Returns _ => true
  end.

Definition tiff : string → bool := Fs.ends_with ".tiff".

(** The image a file holds, if it is there and is a readable TIFF. *)
Definition image_at (files : list file) (p : path) : option ndarray :=
  match Fs.find_file p files with
  | Some f => fimage f
  | None => None
  end.

(** What the evaluation cells need from the cells before them. *)
Record evaluable (s : state) (rd folder : path) (task : string) : Prop := mkEvaluable {
  ev_Path : is_Some (globals s !! "Path");
  ev_opt : is_Some (globals s !! "opt");
  ev_results_dir : opt s !! "results_dir" = Some (VPath rd);
  ev_folder : globals s !! "output_image_folder" = Some (VPath folder);
  ev_task : globals s !! "translation_task" = Some (VStr task)
}.

(** The files the three globs of lines 376-387 find. *)
Definition virtual_stain_files (s : state) (rd : path) : list path :=
  Fs.rglob tiff rd (fs s).
Definition target_stain_files (s : state) (folder : path) (task : string) : list path :=
  Fs.rglob tiff (folder ++ [task; "test"]) (fs s).
Definition phase_files (s : state) (folder : path) : list path :=
  Fs.rglob tiff (folder ++ ["input"; "test"]) (fs s).

(** The mask files line 528 and line 529 look for. *)
Definition predicted_mask_files (s : state) (rd : path) : list path :=
  Fs.rglob Evaluate.mask_pattern rd (fs s).
Definition target_mask_files (s : state) (folder : path) : list path :=
  Fs.rglob Evaluate.mask_pattern (folder ++ ["test"]) (fs s).

(** The three arrays while the loading loop runs. *)
Record loading (n lv lt lp : nat) (files : list file) (s : state) : Prop := mkLoading {
  ld_virtual : globals s !! "virtual_stains" = Some (VArr lv);
  ld_target : globals s !! "target_stains" = Some (VArr lt);
  ld_phase : globals s !! "phase_images" = Some (VArr lp);
  ld_virtual_shape : ∃ a, heap s !! lv = Some a ∧ shape a = [n; 512; 512];
  ld_target_shape : ∃ a, heap s !! lt = Some a ∧ shape a = [n; 512; 512];
  ld_phase_shape : ∃ a, heap s !! lp = Some a ∧ shape a = [n; 512; 512];
  ld_fs : fs s = files
}.

(** A path whose file holds an image that fits a 512 by 512 slot. *)
Definition fits (files : list file) (x : value) : Prop :=
  ∃ q a, x = VPath q ∧ image_at files q = Some a ∧
         Np.assignable (shape a) [512; 512] = true.

(** The directories the cellpose command lines were given. *)
Definition cellpose_dirs (t : list event) : list value :=
  flat_map (λ e, match e with
                 | EvCall "python -m cellpose" (d :: _) => [d]
                 | _ => []
                 end) t.

(** * A concrete world and concrete runs *)

Module Sample.

Definition user_home : path := ["/"; "home"; "user"].

Definition tiff_files : path := user_home ++ ["data"; "04_image_translation"; "tiff_files"].

(** A stand-in for cellpose: one mask file next to every [.tiff] image
    directly inside the directory. *)
Definition masks_for (dir : path) (files : list file) : list file :=
  flat_map
    (λ f, match List.rev (fpath f) with
          | base :: parent =>
              if bool_decide (List.rev parent = dir) && Fs.ends_with ".tiff" base
              then [mkFile (dir ++ [base +:+ "_cp_masks.tif"]) (Some (mkArr [1; 1] [1%Q]))]
              else []
          | [] => []
          end)
    files.

Definition the_world (read : path → result value) : world :=
  {| home := user_home;
     train_options := list_to_map [("seed", VInt 42); ("name", VStr "label2city");
                                   ("checkpoints_dir", VPath ["checkpoints"])];
     test_options := list_to_map [("name", VStr "label2city");
                                  ("results_dir", VPath ["results"]);
                                  ("how_many", VInt 50)];
     int_of_str := λ _, None;
     loadtxt := read;
     inference_writes := λ _ files, files;
     cellpose_writes := λ dir _ files,
       files ++ List.filter
                  (λ m, negb (bool_decide (is_Some (Fs.find_file (fpath m) files))))
                  (masks_for dir files);
     structural_similarity := λ _ _, Finite 1;
     corrcoef01 := λ _ _, NaN;
     peak_signal_noise_ratio := λ _ _, PosInf |}.

(** No checkpoint index on disk. *)
Definition no_checkpoint : world := the_world (λ p, Raises (FileNotFoundError p)).

(** The read is interrupted from the keyboard. *)
Definition interrupted : world := the_world (λ _, Raises KeyboardInterrupt).

(** One image of one row of 512 pixels. *)
Definition strip (x : Q) : ndarray := mkArr [1; 512] (replicate 512 x).

(** One virtual stain, one target stain and one phase image. *)
Definition one_each : list file :=
  [ mkFile ["results"; "img_0.tiff"] (Some (strip 3%Q));
    mkFile (tiff_files ++ ["nuclei"; "test"; "img_0.tiff"]) (Some (strip 5%Q));
    mkFile (tiff_files ++ ["input"; "test"; "img_0.tiff"]) (Some (strip 7%Q)) ].

(** Two virtual stains for one target stain and one phase image. *)
Definition one_too_many : list file :=
  mkFile ["results"; "img_1.tiff"] (Some (strip 3%Q)) :: one_each.

(** The kernel after lines 66-183 ran on a fresh kernel. *)
Definition after_prelude (w : world) (files : list file) : state :=
  final_state (Train.prelude w (fresh files)).

(** The kernel once the training cell and Part 2 ran: an exception ends its
    cell and leaves the namespace as it is. *)
Definition before_options (w : world) (files : list file) : state :=
  final_state (Evaluate.part2_cell
                 (final_state (Train.training w (after_prelude w files)))).

(** ... and once the options and the inference cells ran. *)
Definition before_evaluation (w : world) (files : list file) : state :=
  final_state (Evaluate.inference_cell w
                 (final_state (Evaluate.options_cell w (before_options w files)))).

Definition gathered (w : world) (files : list file) : state :=
  final_state (Evaluate.gather_cell (before_evaluation w files)).

Definition allocated (w : world) (files : list file) : state :=
  final_state (Evaluate.allocate_cell (gathered w files)).

(** ... and once the images were loaded and the pixel metrics computed. *)
Definition measured (w : world) (files : list file) : state :=
  final_state
    ((Evaluate.load_cell ;; Evaluate.visualise_cell ;; Evaluate.metrics_cell w)
       (allocated w files)).

(** A model that hands its input back, a loader that would reverse the
    stream, and two examples. *)
Definition echo (_ : unit) (_ : bool) (_ : nat) (img : Runner.image) : Runner.image := img.
Definition two_examples : list Runner.example :=
  [ Runner.mkExample "img_0" [1%Q; 2%Q] [0%Q; 0%Q];
    Runner.mkExample "img_1" [3%Q; 4%Q] [0%Q; 0%Q] ].
Definition under (dir : path) (id : string) : path := dir ++ [id +:+ ".tiff"].

End Sample.

(** * Task 3.1: the display of random samples (lines 435-472)

    [visualise_results] is defined by the notebook and takes the three image
    stacks as arguments.  Its parameters are annotated as numpy arrays; here
    they are references to arrays of the heap.  Its local names ([fig],
    [axes], [sample_indices], [i], [idx]) live in the frame of the call and
    are binders below, while [plt] and [np] are looked up in the module
    namespace each time the body mentions them. *)

Module Plot.
Section Plot.
(** The random generator and the percentile routine as one call meets them:
    the [k]-th raw number the generator hands out during the call, and the
    [q]-th percentile of flattened data. *)
Variable draw : nat → nat.
Variable percentile : list Q → Z → fscore.

(** [len(a)]. *)
Definition array_len (l : nat) : M nat :=
  a ← deref (VArr l);
  match shape a with
  | n :: _ => ret n
  | [] => raise (TypeError "len() of unsized object")
  end.

(** [a[idx]] for an index that is not negative. *)
Definition subscript (l idx : nat) : M value :=
  a ← deref (VArr l);
  match shape a with
  | n :: _ =>
      if idx <? n then ret (VView l idx)
      else raise (IndexError "index is out of bounds for axis 0")
  | [] => raise (IndexError "too many indices for array")
  end.

(** [np.random.choice(n, count)]: [count] indices below [n], with
    replacement. *)
Definition np_random_choice (n count : nat) : M (list nat) :=
  emit (EvCall "np.random.choice" [VInt (Z.of_nat n); VInt (Z.of_nat count)]) ;;
  if n =? 0
  then raise (ValueError "a must be greater than 0 unless no samples are taken")
  else ret (map (λ k, draw k mod n) (seq 0 count)).

(** [np.percentile(a[idx], q)]. *)
Definition np_percentile (l idx : nat) (q : Z) : M value :=
  _ ← name "np";
  v ← subscript l idx;
  d ← view_data v;
  emit (EvCall "np.percentile" [v; VInt q]) ;;
  ret (VFloat (percentile d q)).

(** [axes[i, col].imshow(img, cmap="gray", ...)], [.set_title(title)] and
    [.axis("off")], once the arguments of [imshow] have their values. *)
Definition panel (i col : nat) (title : string) (img : value) (window : list value) : M unit :=
  emit (EvCall "axes.imshow"
          ([VInt (Z.of_nat i); VInt (Z.of_nat col); img; VStr "gray"] ++ window)) ;;
  emit (EvCall "axes.set_title" [VInt (Z.of_nat i); VInt (Z.of_nat col); VStr title]) ;;
  emit (EvCall "axes.axis" [VInt (Z.of_nat i); VInt (Z.of_nat col); VStr "off"]).

(** Lines 452-470: the body of the loop for one sampled index. *)
Definition show_sample (phase_images target_stains virtual_stains i idx : nat) : M unit :=
  img ← subscript phase_images idx;
  panel i 0 "Phase" img [] ;;
  img ← subscript target_stains idx;
  vmin ← np_percentile target_stains idx 1;
  vmax ← np_percentile target_stains idx 99;
  panel i 1 "Nuclei" img [vmin; vmax] ;;
  img ← subscript virtual_stains idx;
  vmin ← np_percentile target_stains idx 1;
  vmax ← np_percentile target_stains idx 99;
  panel i 2 "Virtual Stain" img [vmin; vmax].

(** Line 451: [for i, idx in enumerate(sample_indices)]. *)
Fixpoint show_samples (phase_images target_stains virtual_stains i : nat)
    (sample_indices : list nat) : M unit :=
  match sample_indices with
  | [] => ret tt
  | idx :: rest =>
      show_sample phase_images target_stains virtual_stains i idx ;;
      show_samples phase_images target_stains virtual_stains (S i) rest
  end.

(** Lines 435-472. *)
Definition visualise_results (phase_images target_stains virtual_stains : nat) : M value :=
  _ ← name "plt";
  emit (EvCall "plt.subplots" [VInt 5; VInt 3]) ;;
  _ ← name "np";
  n ← array_len phase_images;
  sample_indices ← np_random_choice n 5;
  show_samples phase_images target_stains virtual_stains 0 sample_indices ;;
  _ ← name "plt";
  emit (EvCall "plt.tight_layout" []) ;;
  _ ← name "plt";
  emit (EvCall "plt.show" []) ;;
  ret VNone.

End Plot.
End Plot.

(** * Further observations *)

(** A key as the option dictionaries of the notebook spell it. *)
Definition dashed (a : string) : bool := String.prefix "--" a.

(** The calls lines 101-183 make, in order, for the seed the parser returned. *)
Definition setup_calls (w : world) (seed : Z) : list event :=
  [ EvCall "TrainOptions().parse" [];
    EvCall "util.set_seed" [VInt seed];
    EvCall "SummaryWriter"
      [VPath (home w ++ ["data"; "04_image_translation"; "dlmbl_vsnuclei"; "logs"])];
    EvCall "CreateDataLoader" [VObj "opt"];
    EvCall "train_dataloader.load_data" [];
    EvPrint "Total Training Images = {len(train_dataloader)}" [VObj "DataLoader"];
    EvCall "CreateDataLoader" [VObj "opt"];
    EvCall "val_dataloader.load_data" [];
    EvPrint "Total Validation Images = {len(val_dataloader)}" [VObj "DataLoader"];
    EvCall "create_model" [VObj "opt"];
    EvCall "Visualizer" [VObj "opt"] ].

(** Ascending order of paths, as [sorted] compares them. *)
Definition path_le (p q : path) : Prop := Fs.path_leb p q = true.

(** An array whose data has as many entries as its shape says. *)
Definition well_formed (a : ndarray) : bool := length (data a) =? Np.size (shape a).

(** The flattened data at position [k] of the array at [l]. *)
Definition slot (s : state) (l k : nat) : list Q :=
  match heap s !! l with
  | Some a => Np.row a k
  | None => []
  end.

(** What a 512 by 512 slot holds once the image of a file was assigned to it. *)
Definition loads_as (files : list file) (p : path) (d : list Q) : Prop :=
  ∃ img, image_at files p = Some img ∧ well_formed img = true ∧
         Np.broadcast img [512; 512] = Some d.

(** A file that holds a well-formed image whose shape numpy accepts for a
    512 by 512 slot. *)
Definition readable_fit (files : list file) (p : path) : bool :=
  match image_at files p with
  | Some img => well_formed img && Np.assignable (shape img) [512; 512]
  | None => false
  end.

(** The array at [l] is a stack of [n] slots of 512 by 512. *)
Definition stack (s : state) (l n : nat) : Prop :=
  ∃ a, heap s !! l = Some a ∧ shape a = [n; 512; 512] ∧ well_formed a = true.

(** The three stacks as the loading loop needs and keeps them. *)
Record stacked (n lv lt lp : nat) (s : state) : Prop := mkStacked {
  sk_virtual : globals s !! "virtual_stains" = Some (VArr lv);
  sk_target : globals s !! "target_stains" = Some (VArr lt);
  sk_phase : globals s !! "phase_images" = Some (VArr lp);
  sk_imread : is_Some (globals s !! "imread");
  sk_virtual_stack : stack s lv n;
  sk_target_stack : stack s lt n;
  sk_phase_stack : stack s lp n;
  sk_vt : lv ≠ lt;
  sk_vp : lv ≠ lp;
  sk_tp : lt ≠ lp
}.

(** The three scores of one pair of images, target first, in the columns of
    the frame. *)
Definition scores (w : world) (target predicted : list Q) : metric_row :=
  mkRow (corrcoef01 w target predicted)
        (structural_similarity w target predicted)
        (peak_signal_noise_ratio w target predicted).

(** The calls lines 488-494 make for row [i]. *)
Definition metric_calls (lt lv i : nat) : list event :=
  [ EvCall "metrics.structural_similarity" [VView lt i; VView lv i; VInt 1];
    EvCall "np.corrcoef" [VView lt i; VView lv i];
    EvCall "metrics.peak_signal_noise_ratio" [VView lt i; VView lv i; VInt 1] ].

(** The record lines 548-553 append for one pair of masks. *)
Definition image_set (image virtual_stain_mask fluorescence_mask : value) : value :=
  VDict [("Image", image); ("Model", VStr "Pix2PixHD");
         ("Virtual_Stain_Mask", virtual_stain_mask);
         ("Fluorescence_Mask", fluorescence_mask)].

(** The calls one row of the figure makes. *)
Definition sample_calls (percentile : list Q → Z → fscore)
    (target : ndarray) (lp lt lv i idx : nat) : list event :=
  let vmin := VFloat (percentile (Np.row target idx) 1%Z) in
  let vmax := VFloat (percentile (Np.row target idx) 99%Z) in
  let cell (col : nat) (title : string) (img : value) (window : list value) :=
    [ EvCall "axes.imshow"
        ([VInt (Z.of_nat i); VInt (Z.of_nat col); img; VStr "gray"] ++ window);
      EvCall "axes.set_title" [VInt (Z.of_nat i); VInt (Z.of_nat col); VStr title];
      EvCall "axes.axis" [VInt (Z.of_nat i); VInt (Z.of_nat col); VStr "off"] ] in
  let window := [ EvCall "np.percentile" [VView lt idx; VInt 1];
                  EvCall "np.percentile" [VView lt idx; VInt 99] ] in
  cell 0 "Phase" (VView lp idx) []
  ++ window ++ cell 1 "Nuclei" (VView lt idx) [vmin; vmax]
  ++ window ++ cell 2 "Virtual Stain" (VView lv idx) [vmin; vmax].

(** The calls the rows of the figure make, for the sampled indices in order. *)
Fixpoint samples_calls (percentile : list Q → Z → fscore)
    (target : ndarray) (lp lt lv i : nat) (idxs : list nat) : list event :=
  match idxs with
  | [] => []
  | idx :: rest =>
      sample_calls percentile target lp lt lv i idx
      ++ samples_calls percentile target lp lt lv (S i) rest
  end.

(** ** Further concrete runs *)

Module Cases.

(** A checkpoint index that says epoch 3, iteration 120. *)
Definition checkpointed : world :=
  Sample.the_world (λ _, Returns (VList [VInt 3; VInt 120])).

(** A checkpoint index of two lines of two numbers each. *)
Definition two_by_two : world :=
  Sample.the_world
    (λ _, Returns (VList [VList [VInt 3; VInt 120]; VList [VInt 4; VInt 0]])).

(** A parser that knows no seed. *)
Definition seedless : world :=
  {| home := Sample.user_home;
     train_options := list_to_map [("name", VStr "label2city")];
     test_options := ∅;
     int_of_str := λ _, None;
     loadtxt := λ p, Raises (FileNotFoundError p);
     inference_writes := λ _ files, files;
     cellpose_writes := λ _ _ files, files;
     structural_similarity := λ _ _, Finite 1;
     corrcoef01 := λ _ _, NaN;
     peak_signal_noise_ratio := λ _ _, PosInf |}.

(** Three stacks of two slots of one row of two pixels, and an image of one
    row to be stored at index 1. *)
Definition small_stacks : state :=
  mkState
    (list_to_map [("np", VObj "np"); ("plt", VObj "plt"); ("metrics", VObj "metrics");
                  ("test_metrics", VObj "DataFrame");
                  ("virtual_stains", VArr 0); ("target_stains", VArr 1);
                  ("phase_images", VArr 2); ("index", VInt 1);
                  ("phase_image", VImg (mkArr [1; 2] [9%Q; 9%Q]))])
    ∅
    [mkArr [2; 1; 2] [1%Q; 2%Q; 3%Q; 4%Q]; mkArr [2; 1; 2] [5%Q; 6%Q; 7%Q; 8%Q];
     Np.zeros [2; 1; 2]]
    [] ∅ [].

(** The same names over stacks of no slot at all. *)
Definition empty_stacks : state :=
  set_heap (λ _, [Np.zeros [0; 1; 2]; Np.zeros [0; 1; 2]; Np.zeros [0; 1; 2]]) small_stacks.

(** A kernel with one predicted mask and one target mask on disk. *)
Definition masked : state :=
  mkState
    (list_to_map [("pd", VObj "pd"); ("imread", VObj "imread"); ("np", VObj "np");
                  ("plt", VObj "plt");
                  ("gen_segmentation_scores", VObj "gen_segmentation_scores");
                  ("opt", VObj "opt");
                  ("predicted_masks", VList [VPath ["results"; "img_0_cp_masks.tif"]]);
                  ("target_masks", VList [VPath ["targets"; "img_0_cp_masks.tif"]])])
    (list_to_map [("name", VStr "dlmbl_vsnuclei")])
    []
    [mkFile ["results"; "img_0_cp_masks.tif"] (Some (mkArr [1; 1] [1%Q]));
     mkFile ["targets"; "img_0_cp_masks.tif"] (Some (mkArr [1; 1] [2%Q]))]
    ∅ [].

(** ... where an earlier session left the misspelt name bound. *)
Definition stale : state :=
  set_globals <["virtal_stain_mask" := VImg (mkArr [1; 1] [7%Q])]> masked.

(** ... where no predicted mask was found. *)
Definition unmasked : state :=
  set_globals <["predicted_masks" := VList []]> masked.

(** A kernel ready for the sampler cell. *)
Definition before_sampling : state :=
  mkState
    (list_to_map [("CreateDataLoader", VObj "CreateDataLoader");
                  ("Visualizer", VObj "Visualizer");
                  ("create_model", VObj "create_model");
                  ("sampling", VObj "sampling"); ("opt", VObj "opt")])
    (list_to_map [("name", VStr "dlmbl_vsnuclei"); ("batchSize", VInt 1)])
    [] [] ∅ [].

(** Three zero stacks of two slots, and three files on disk: two of one
    pixel, and a phase image of 2 by 2 pixels. *)
Definition before_a_turn : state :=
  mkState
    (list_to_map [("imread", VObj "imread");
                  ("virtual_stains", VArr 0); ("target_stains", VArr 1);
                  ("phase_images", VArr 2)])
    ∅
    [Np.zeros [2; 512; 512]; Np.zeros [2; 512; 512]; Np.zeros [2; 512; 512]]
    [mkFile ["v.tiff"] (Some (mkArr [1; 1] [1%Q]));
     mkFile ["t.tiff"] (Some (mkArr [1; 1] [2%Q]));
     mkFile ["p.tiff"] (Some (mkArr [2; 2] [3%Q; 3%Q; 3%Q; 3%Q]))]
    ∅ [].

End Cases.

(** * Reasoning about cells *)

(** ** Namespaces as assignment lists *)

Lemma lookup_puts l m x :
  puts l m !! x = match assoc x l with Some v => Some v | None => m !! x end.
Proof.
  induction l as [|[k v] l IH]; simpl; [done|].
  destruct (String.eqb_spec k x) as [->|Hne].
  - by rewrite lookup_insert_eq.
  - by rewrite lookup_insert_ne.
Qed.

Lemma assoc_unbind x y l :
  assoc y (unbind x l) = if String.eqb x y then None else assoc y l.
Proof.
  induction l as [|[k v] l IH]; simpl.
  - by destruct (String.eqb x y).
  - destruct (String.eqb_spec k x) as [->|Hkx].
    + rewrite IH. by destruct (String.eqb_spec x y).
    + simpl. rewrite IH.
      destruct (String.eqb_spec k y) as [->|Hky]; [|done].
      by destruct (String.eqb_spec x y) as [->|].
Qed.

Lemma puts_cons x v l m : <[x:=v]> (puts l m) = puts ((x, v) :: l) m.
Proof. reflexivity. Qed.

Lemma puts_insert x v l m : <[x:=v]> (puts l m) = puts ((x, v) :: unbind x l) m.
Proof.
  apply map_eq. intros y. rewrite <- puts_cons.
  destruct (decide (x = y)) as [->|Hne].
  - by rewrite !lookup_insert_eq.
  - rewrite !lookup_insert_ne by done. rewrite !lookup_puts, assoc_unbind.
    by rewrite (proj2 (String.eqb_neq x y)).
Qed.

Lemma insert_base x v (m : gmap string value) : <[x:=v]> m = puts [(x, v)] m.
Proof. reflexivity. Qed.

Lemma dict_update_puts kvs l m :
  dict_update kvs (puts l m) = puts (rev_append kvs l) m.
Proof.
  revert l. induction kvs as [|[k v] kvs IH]; intros l; simpl; [done|].
  unfold dict_update in *. simpl. by rewrite puts_cons, IH.
Qed.

Lemma dict_update_base kvs m : dict_update kvs m = puts (rev_append kvs []) m.
Proof. apply (dict_update_puts kvs [] m). Qed.

(** ** The monad *)

Lemma bind_bind {A B C} (m : M A) (k1 : A → M B) (k2 : B → M C) s :
  bind (bind m k1) k2 s = bind m (λ x, bind (k1 x) k2) s.
Proof. unfold bind. by destruct (m s). Qed.

Lemma bind_Ok {A B} (m : M A) (k : A → M B) s b s' :
  bind m k s = Ok b s' → ∃ a s1, m s = Ok a s1 ∧ k a s1 = Ok b s'.
Proof. unfold bind. destruct (m s) as [a s1|]; [eauto|discriminate]. Qed.

Lemma bind_Raise {A B} (m : M A) (k : A → M B) s e s' :
  m s = Raise e s' → bind m k s = Raise e s'.
Proof. unfold bind. by intros ->. Qed.

Lemma Ok_inv {A} (a b : A) s s' : Ok a s = Ok b s' → s' = s.
Proof. congruence. Qed.

(** A cell that did not raise returned in its final state. *)
Lemma outcome_eta (o : outcome unit) : raised o = None → o = Ok tt (final_state o).
Proof. by destruct o as [[] s|e s]. Qed.

Lemma py_int_pure w v s :
  (∃ n, Train.py_int w v s = Ok n s) ∨ (∃ e, Train.py_int w v s = Raise e s).
Proof.
  destruct v; cbv [Train.py_int ret raise]; eauto.
  destruct (int_of_str w s0); eauto.
Qed.

(** ** Symbolic execution of straight-line cells *)

Ltac prims :=
  cbv [bind ret raise gets modify name assign emit
       getattr setattr call import_ names dict_setitem opt_update
       as_path component try_except len as_list py_assert
       set_globals set_opt set_heap set_fs set_test_metrics set_trace
       globals opt heap fs test_metrics trace
       dict_put fst snd String.eqb Ascii.eqb Bool.eqb
       Train.unpack2 Train.percent_d Train.np_loadtxt expanduser
       alloc deref glob_sorted imread Evaluate.as_float Evaluate.rows
       Evaluate.expand Evaluate.cellpose_run Evaluate.getitem
       store run_cell is_malformed List.find from_option id].

Ltac lookup1 :=
  match goal with
  | |- context [<[?x:=?v]> (puts ?l ?m)] =>
      rewrite (puts_insert x v l m); cbv [unbind String.eqb Ascii.eqb Bool.eqb]
  | |- context [dict_update ?kvs (puts ?l ?m)] =>
      rewrite (dict_update_puts kvs l m); cbv [rev_append]
  | |- context [puts ?l ?m !! ?x] =>
      rewrite (lookup_puts l m x); cbv [assoc String.eqb Ascii.eqb Bool.eqb]
  | |- context [@insert string value (gmap string value) _ ?x ?v ?m] =>
      rewrite (insert_base x v m)
  | |- context [dict_update ?kvs ?m] =>
      rewrite (dict_update_base kvs m); cbv [rev_append]
  | H : ?g !! ?x = _ |- context [?g !! ?x] => rewrite H
  | H : loadtxt ?w ?p = _ |- context [loadtxt ?w ?p] => rewrite H
  | H : ?b = _ |- context [if ?b then _ else _] => rewrite H
  | H : ?l ≠ ?l' |- context [<[?l:=?a]> ?h !! ?l'] =>
      rewrite (list_lookup_insert_ne h l l' a H)
  | H : ?l' ≠ ?l |- context [<[?l:=?a]> ?h !! ?l'] =>
      rewrite (list_lookup_insert_ne h l l' a (not_eq_sym H))
  end.
Ltac lookups := repeat lookup1.

Ltac finish := repeat (progress (prims; lookups)).

Ltac reassoc :=
  repeat match goal with
         | |- context [bind (bind ?m ?k1) ?k2 ?s] => rewrite (bind_bind m k1 k2 s)
         end.

(** One statement: the head of the cell is run on the current state while
    the rest of the cell stays folded. *)
Ltac step :=
  reassoc;
  lazymatch goal with
  | |- context [@bind ?A ?B ?m ?k ?st] =>
      let K := fresh "K" in
      set (K := k);
      finish;
      subst K; cbv beta iota
  end.
Ltac steps :=
  repeat step;
  lazymatch goal with
  | |- context [@bind] => idtac
  | _ => finish
  end.

(** Where execution waits for a fact about the world or the namespace. *)
Ltac unstick :=
  match goal with
  | |- context [match ?g !! ?x with _ => _ end] => destruct (g !! x) eqn:?
  | |- context [match Train.py_int ?w ?v ?st with _ => _ end] =>
      let n := fresh "n" in
      let e := fresh "e" in
      let H := fresh "H" in
      destruct (py_int_pure w v st) as [[n H]|[e H]]; rewrite H; clear H
  | |- context [match ?v with VNone => _ | _ => _ end] => is_var v; destruct v
  | |- context [match ?x with Some _ => _ | None => _ end] => destruct x eqn:?
  | |- context [if ?b then _ else _] => destruct b eqn:?
  | |- context [match ?x with Returns _ => _ | Raises _ => _ end] => destruct x eqn:?
  end;
  cbv beta iota; lookups; cbv beta iota;
  try lazymatch goal with
      | |- Raise _ _ = Ok _ _ → _ => intros; discriminate
      | |- Ok _ _ = Raise _ _ → _ => intros; discriminate
      end.
Ltac exec := steps; repeat (unstick; steps).

Ltac from_ready R :=
  match type of R with
  | ready _ ?s => destruct s as [g o h f tm tr]; destruct R; cbn [globals opt] in *
  end.

Ltac from_evaluable E :=
  match type of E with
  | evaluable ?s _ _ _ =>
      destruct s as [g o h f tm tr];
      destruct E as [[? ?] [? ?] ? ? ?]; cbn [globals opt fs] in *
  end.

(** ** Part 1: the training cell *)

Section Training.
Variable w : world.

Lemma prelude_ready files s :
  Train.prelude w (fresh files) = Ok tt s →
  ready w s ∧ globals s !! "iter_path" = None.
Proof.
  unfold Train.prelude, Train.imported, fresh, imports,
    Train.setup_cell, Train.data_cell, Train.model_cell.
  exec.
  intros H; apply Ok_inv in H; subst s.
  split; [split|]; cbv [globals opt]; lookups; reflexivity.
Qed.

Lemma training_outcome s :
  ready w s →
  globals s !! "iter_path" = None →
  ∃ s', Train.training w s = Raise (NameError "iter_path") s' ∧
        trace s' = trace s ∧
        globals s' !! "iter_path" = None ∧
        globals s' !! "start_epoch" = Some (VInt 1) ∧
        globals s' !! "epoch_iter" = Some (VInt 0).
Proof.
  intros R Hi. from_ready R. eexists. split.
  { unfold Train.training, Train.resume_block, Train.train_call. exec. reflexivity. }
  cbv [globals trace]. repeat split; lookups; reflexivity.
Qed.

Lemma resumed_training_outcome s e :
  ready w s →
  loadtxt w (checkpoint_index w) = Raises e →
  ∃ s', Train.resumed_training w s = Ok tt s' ∧
        globals s' !! "start_epoch" = Some (VInt 1) ∧
        globals s' !! "epoch_iter" = Some (VInt 0) ∧
        trace s' = trace s ++
          [EvCall "np.loadtxt" [VPath (checkpoint_index w)];
           EvPrint "Resuming from epoch %d at iteration %d" [VInt 1; VInt 0];
           EvCall "train_model"
             [VObj "opt"; VObj "Pix2PixHDModel"; VObj "Visualizer"; VObj "Dataset";
              VObj "Dataset"; VObj "optimizer_G"; VObj "optimizer_D"; VInt 1; VInt 0;
              VPath (checkpoint_index w); VObj "SummaryWriter"]].
Proof.
  intros R Hl. from_ready R. unfold checkpoint_index in *. eexists. split.
  { unfold Train.resumed_training, Train.resume_block, Train.train_call. exec. reflexivity. }
  cbv [globals trace]. repeat split; lookups; try reflexivity.
  by rewrite <- !app_assoc.
Qed.

Lemma resume_block_outcome s :
  ready w s →
  read_fails (loadtxt w (checkpoint_index w)) = true →
  ∃ s', Train.resume_block w true s = Ok tt s' ∧
        globals s' !! "start_epoch" = Some (VInt 1) ∧
        globals s' !! "epoch_iter" = Some (VInt 0).
Proof.
  intros R Hr. from_ready R. unfold checkpoint_index in *.
  destruct (loadtxt w _) as [v|e] eqn:Hl.
  - destruct v as [| | | | | |vs| | | | |]; try destruct vs as [|? [|? [|? ?]]];
      try discriminate Hr.
    all: eexists; (split; [unfold Train.resume_block; exec; reflexivity|]).
    all: cbv [globals trace]; repeat split; lookups; reflexivity.
  - eexists. split; [unfold Train.resume_block; exec; reflexivity|].
    cbv [globals trace]. repeat split; lookups; reflexivity.
Qed.

(** C3: in a fresh kernel, once lines 66-183 have run, the training cell as
    written (line 187 assigns [False]) never assigns [iter_path]; evaluating
    the arguments of [train_model] raises [NameError] for it, and nothing has
    left the notebook since: [train_model] is not called. *)
Theorem fresh_start_raises_name_error files s :
  Train.prelude w (fresh files) = Ok tt s →
  raised (Train.training w s) = Some (NameError "iter_path") ∧
  trace (final_state (Train.training w s)) = trace s ∧
  globals (final_state (Train.training w s)) !! "iter_path" = None ∧
  globals (final_state (Train.training w s)) !! "start_epoch" = Some (VInt 1) ∧
  globals (final_state (Train.training w s)) !! "epoch_iter" = Some (VInt 0).
Proof.
  intros H. destruct (prelude_ready files s H) as [R Hi].
  destruct (training_outcome s R Hi) as (s' & -> & ?). by cbn [raised final_state].
Qed.

(** C2: under a resume request (line 187 assigning [True]), when reading the
    checkpoint index raises, whatever the exception, the block falls back to
    epoch 1 and iteration 0 without raising and [train_model] is called with
    them. *)
Theorem resume_missing_checkpoint_falls_back files s e :
  Train.prelude w (fresh files) = Ok tt s →
  loadtxt w (checkpoint_index w) = Raises e →
  raised (Train.resumed_training w s) = None ∧
  globals (final_state (Train.resumed_training w s)) !! "start_epoch" = Some (VInt 1) ∧
  globals (final_state (Train.resumed_training w s)) !! "epoch_iter" = Some (VInt 0) ∧
  trace (final_state (Train.resumed_training w s)) = trace s ++
    [EvCall "np.loadtxt" [VPath (checkpoint_index w)];
     EvPrint "Resuming from epoch %d at iteration %d" [VInt 1; VInt 0];
     EvCall "train_model"
       [VObj "opt"; VObj "Pix2PixHDModel"; VObj "Visualizer"; VObj "Dataset";
        VObj "Dataset"; VObj "optimizer_G"; VObj "optimizer_D"; VInt 1; VInt 0;
        VPath (checkpoint_index w); VObj "SummaryWriter"]].
Proof.
  intros H Hl. destruct (prelude_ready files s H) as [R _].
  destruct (resumed_training_outcome s e R Hl) as (s' & -> & ?).
  by cbn [raised final_state].
Qed.

(** C9: the handler on line 192 is a bare [except]: whenever the body of the
    [try] raises, be it the read itself with any exception at all or the
    unpacking of what was read, the resume block returns normally with epoch 1
    and iteration 0. *)
Theorem bare_except_catches_everything files s :
  Train.prelude w (fresh files) = Ok tt s →
  read_fails (loadtxt w (checkpoint_index w)) = true →
  raised (Train.resume_block w true s) = None ∧
  globals (final_state (Train.resume_block w true s)) !! "start_epoch" = Some (VInt 1) ∧
  globals (final_state (Train.resume_block w true s)) !! "epoch_iter" = Some (VInt 0).
Proof.
  intros H Hr. destruct (prelude_ready files s H) as [R _].
  destruct (resume_block_outcome s R Hr) as (s' & -> & ?).
  by cbn [raised final_state].
Qed.

End Training.

Lemma fresh_start_witness :
  Train.prelude Sample.no_checkpoint (fresh [])
    = Ok tt (Sample.after_prelude Sample.no_checkpoint []) ∧
  raised (Train.training Sample.no_checkpoint (Sample.after_prelude Sample.no_checkpoint []))
    = Some (NameError "iter_path").
Proof.
  assert (H : Train.prelude Sample.no_checkpoint (fresh [])
              = Ok tt (Sample.after_prelude Sample.no_checkpoint [])).
  { apply outcome_eta. vm_compute. reflexivity. }
  split; [exact H|].
  exact (proj1 (fresh_start_raises_name_error Sample.no_checkpoint [] _ H)).
Defined.

Lemma resume_missing_checkpoint_witness :
  Train.prelude Sample.no_checkpoint (fresh [])
    = Ok tt (Sample.after_prelude Sample.no_checkpoint []) ∧
  loadtxt Sample.no_checkpoint (checkpoint_index Sample.no_checkpoint)
    = Raises (FileNotFoundError (checkpoint_index Sample.no_checkpoint)) ∧
  raised (Train.resumed_training Sample.no_checkpoint
            (Sample.after_prelude Sample.no_checkpoint [])) = None.
Proof.
  assert (H : Train.prelude Sample.no_checkpoint (fresh [])
              = Ok tt (Sample.after_prelude Sample.no_checkpoint [])).
  { apply outcome_eta. vm_compute. reflexivity. }
  split; [exact H|]. split; [reflexivity|].
  exact (proj1 (resume_missing_checkpoint_falls_back Sample.no_checkpoint [] _ _ H eq_refl)).
Defined.

Lemma bare_except_witness :
  Train.prelude Sample.interrupted (fresh [])
    = Ok tt (Sample.after_prelude Sample.interrupted []) ∧
  read_fails (loadtxt Sample.interrupted (checkpoint_index Sample.interrupted)) = true ∧
  raised (Train.resume_block Sample.interrupted true
            (Sample.after_prelude Sample.interrupted [])) = None.
Proof.
  assert (H : Train.prelude Sample.interrupted (fresh [])
              = Ok tt (Sample.after_prelude Sample.interrupted [])).
  { apply outcome_eta. vm_compute. reflexivity. }
  split; [exact H|]. split; [reflexivity|].
  exact (proj1 (bare_except_catches_everything Sample.interrupted [] _ H eq_refl)).
Defined.

(** ** numpy assignment *)

Lemma broadcast_assignable v dst d :
  Np.broadcast v dst = Some d → Np.assignable (shape v) dst = true.
Proof.
  unfold Np.broadcast, Np.assignable.
  destruct (Np.aligned (shape v) dst); [|discriminate].
  by destruct (Np.compatible l dst).
Qed.

Lemma setitem_Returns a k v a' :
  Np.setitem a k v = Returns a' →
  shape a' = shape a ∧ Np.assignable (shape v) (tail (shape a)) = true.
Proof.
  unfold Np.setitem. destruct (shape a) as [|n rest] eqn:Hs; [discriminate|].
  destruct (_ && _); [|discriminate].
  destruct (Np.broadcast v rest) as [d|] eqn:Hb; [|discriminate].
  intros [= <-]. split; [done|]. by eapply broadcast_assignable.
Qed.

(** For an image of two axes, fitting a 512 by 512 slot means that each axis
    is 512 or 1. *)
Lemma assignable_2d rows cols :
  Np.assignable [rows; cols] [512; 512] = true ↔
  (rows = 512 ∨ rows = 1) ∧ (cols = 512 ∨ cols = 1).
Proof.
  unfold Np.assignable, Np.aligned. cbn [length Nat.sub Np.strip_ones replicate app Np.compatible].
  rewrite !andb_true_iff, !orb_true_iff, !Nat.eqb_eq. tauto.
Qed.

Example exact_image_fits : Np.assignable [512; 512] [512; 512] = true.
Proof. reflexivity. Qed.

Example one_row_fits : Np.assignable [1; 512] [512; 512] = true.
Proof. reflexivity. Qed.

Example one_pixel_fits : Np.assignable [1; 1] [512; 512] = true.
Proof. reflexivity. Qed.

Example single_page_stack_fits : Np.assignable [1; 512; 512] [512; 512] = true.
Proof. reflexivity. Qed.

Example smaller_image_does_not_fit : Np.assignable [256; 256] [512; 512] = false.
Proof. reflexivity. Qed.

Example colour_image_does_not_fit : Np.assignable [512; 512; 3] [512; 512] = false.
Proof. reflexivity. Qed.

(** [arr[idx] = val] writes one array and no other. *)
Lemma store_frame arr idx val s s' l l' :
  globals s !! arr = Some (VArr l) →
  store arr idx val s = Ok tt s' →
  l' ≠ l →
  heap s' !! l' = heap s !! l'.
Proof.
  destruct s as [g o h f tm tr]. cbn [globals heap]. intros Hl.
  unfold store. exec.
  all: intros H; apply Ok_inv in H; subst s'; intros Hne.
  all: by rewrite list_lookup_insert_ne.
Qed.

(** ** Sorting keeps the files *)

Lemma insert_sorted_length p l : length (Fs.insert_sorted p l) = S (length l).
Proof.
  induction l as [|q l IH]; simpl; [done|].
  destruct (Fs.path_leb p q); simpl; by rewrite ?IH.
Qed.

Lemma sorted_length l : length (Fs.sorted l) = length l.
Proof.
  induction l as [|p l IH]; simpl; [done|].
  unfold Fs.sorted in *. simpl. by rewrite insert_sorted_length, IH.
Qed.

(** ** Part 3: gathering, allocating and loading *)

Lemma gather_mismatch s rd folder task :
  evaluable s rd folder task →
  ¬ (length (virtual_stain_files s rd) = length (target_stain_files s folder task) ∧
     length (target_stain_files s folder task) = length (phase_files s folder)) →
  ∃ s', Evaluate.gather_cell s = Raise (AssertionError "Number of images do not match.") s' ∧
        trace s' = trace s ∧ heap s' = heap s ∧
        test_metrics s' = test_metrics s ∧ fs s' = fs s.
Proof.
  intros E Hne. unfold virtual_stain_files, target_stain_files, phase_files in Hne.
  from_evaluable E. unfold tiff in Hne.
  set (nv := length (map VPath (Fs.sorted (Fs.rglob (Fs.ends_with ".tiff") rd f)))).
  set (nt := length (map VPath (Fs.sorted
               (Fs.rglob (Fs.ends_with ".tiff") (folder ++ [task; "test"]) f)))).
  set (np := length (map VPath (Fs.sorted
               (Fs.rglob (Fs.ends_with ".tiff") (folder ++ ["input"; "test"]) f)))).
  assert (Hb : (nv =? nt) = false ∨ ((nv =? nt) = true ∧ (nt =? np) = false)).
  { subst nv nt np. rewrite !length_map, !sorted_length.
    destruct (Nat.eqb_spec (length (Fs.rglob (Fs.ends_with ".tiff") rd f))
                (length (Fs.rglob (Fs.ends_with ".tiff") (folder ++ [task; "test"]) f)));
      [|by left].
    right. split; [done|]. apply Nat.eqb_neq. intros ?. by apply Hne. }
  subst nv nt np.
  destruct Hb as [Hb|[Hb1 Hb2]].
  all: eexists; (split; [unfold Evaluate.gather_cell; exec; reflexivity|]).
  all: by cbv [trace heap test_metrics fs].
Qed.

Lemma gather_ok s0 s :
  Evaluate.gather_cell s0 = Ok tt s →
  ∃ vs ts ps,
    globals s !! "virtual_stain_paths" = Some (VList (map VPath vs)) ∧
    globals s !! "target_stain_paths" = Some (VList (map VPath ts)) ∧
    globals s !! "phase_paths" = Some (VList (map VPath ps)) ∧
    length vs = length ts ∧ length ts = length ps ∧
    fs s = fs s0.
Proof.
  destruct s0 as [g o h f tm tr]. unfold Evaluate.gather_cell.
  exec.
  intros H; apply Ok_inv in H; subst s.
  do 3 eexists. cbv [globals fs]. lookups.
  repeat (split; [reflexivity|]).
  repeat match goal with H : (_ =? _) = true |- _ => apply Nat.eqb_eq in H end.
  rewrite !length_map in *. done.
Qed.

Lemma allocate_ok s s1 l :
  globals s !! "virtual_stain_paths" = Some (VList l) →
  Evaluate.allocate_cell s = Ok tt s1 →
  globals s1 !! "virtual_stains" = Some (VArr (length (heap s))) ∧
  globals s1 !! "target_stains" = Some (VArr (S (length (heap s)))) ∧
  globals s1 !! "phase_images" = Some (VArr (S (S (length (heap s))))) ∧
  heap s1 = heap s ++ [Np.zeros [length l; 512; 512];
                       Np.zeros [length l; 512; 512];
                       Np.zeros [length l; 512; 512]] ∧
  fs s1 = fs s ∧
  globals s1 !! "virtual_stain_paths" = globals s !! "virtual_stain_paths" ∧
  globals s1 !! "target_stain_paths" = globals s !! "target_stain_paths" ∧
  globals s1 !! "phase_paths" = globals s !! "phase_paths".
Proof.
  destruct s as [g o h f tm tr]. cbn [globals heap fs]. intros Hl.
  unfold Evaluate.allocate_cell.
  exec.
  intros H; apply Ok_inv in H; subst s1.
  cbv [globals heap fs]. lookups.
  rewrite !length_app. simpl length. rewrite !Nat.add_1_r.
  repeat (split; [reflexivity|]).
  repeat match goal with
         | H : (_ ++ [_]) !! _ = Some _ |- _ =>
             first [ rewrite list_lookup_middle in H by done
                   | rewrite lookup_app_l in H by (rewrite length_app; simpl; lia) ]
         end.
  simplify_eq. split; [|done].
  by rewrite <- !app_assoc.
Qed.

Lemma load_body_ok n lv lt lp files i item s s' :
  lv ≠ lt → lv ≠ lp → lt ≠ lp →
  loading n lv lt lp files s →
  Evaluate.load_body i item s = Ok tt s' →
  loading n lv lt lp files s' ∧
  fits files item.1.1 ∧ fits files item.1.2 ∧ fits files item.2.
Proof.
  intros Hvt Hvp Htp L. destruct item as [[v t] p].
  destruct s as [g o h f tm tr].
  destruct L as [? ? ? (av & ? & ?) (at_ & ? & ?) (ap & ? & ?) ?].
  cbn [globals heap fs] in *. subst f.
  unfold Evaluate.load_body.
  exec.
  intros H'; apply Ok_inv in H'; subst s'.
  repeat match goal with
         | H : Np.setitem _ _ _ = Returns _ |- _ =>
             apply setitem_Returns in H; destruct H as [? ?]
         end.
  repeat match goal with
         | H : shape ?a = _, H' : context [shape ?a] |- _ => rewrite H in H'
         end.
  cbn [tail] in *.
  assert (Hfit : ∀ q fl img, Fs.find_file q files = Some fl → fimage fl = Some img →
                 Np.assignable (shape img) [512; 512] = true → fits files (VPath q)).
  { intros q fl img Hq Ha Hs. exists q, img. unfold image_at. by rewrite Hq. }
  split; [|by repeat split; eauto].
  split; cbv [globals heap fs]; lookups; try reflexivity.
  - exists a1. split; [|done].
    apply list_lookup_insert_eq. rewrite !length_insert. by eapply lookup_lt_Some.
  - exists a0. split; [|done].
    apply list_lookup_insert_eq. rewrite !length_insert. by eapply lookup_lt_Some.
  - exists a. split; [|done].
    apply list_lookup_insert_eq. by eapply lookup_lt_Some.
Qed.

Lemma load_loop_ok n lv lt lp files items : ∀ i s s',
  lv ≠ lt → lv ≠ lp → lt ≠ lp →
  loading n lv lt lp files s →
  Evaluate.load_loop i items s = Ok tt s' →
  loading n lv lt lp files s' ∧
  Forall (λ item, fits files item.1.1 ∧ fits files item.1.2 ∧ fits files item.2) items.
Proof.
  induction items as [|item items IH]; intros i s s' Hvt Hvp Htp L; simpl.
  - intros H. apply Ok_inv in H. subst s'. by split.
  - intros H. apply bind_Ok in H as (u & s1 & Hb & Hl).
    destruct u.
    destruct (load_body_ok n lv lt lp files i item s s1) as [L1 Hfit]; try done.
    destruct (IH (S i) s1 s') as [L' Hrest]; try done.
    split; [done|]. by constructor.
Qed.

Lemma zip3_fits files (vs ts ps : list path) :
  length vs = length ts → length ts = length ps →
  Forall (λ item, fits files item.1.1 ∧ fits files item.1.2 ∧ fits files item.2)
         (zip3 (map VPath vs) (map VPath ts) (map VPath ps)) →
  Forall (λ p, ∃ a, image_at files p = Some a ∧ Np.assignable (shape a) [512; 512] = true)
         (vs ++ ts ++ ps).
Proof.
  intros H1 H2 HF.
  assert (Hp : ∀ q, fits files (VPath q) →
               ∃ a, image_at files q = Some a ∧ Np.assignable (shape a) [512; 512] = true).
  { intros q (q' & a & [= <-] & ? & ?). eauto. }
  assert (Forall (λ p, fits files (VPath p)) vs ∧ Forall (λ p, fits files (VPath p)) ts ∧
          Forall (λ p, fits files (VPath p)) ps) as (Fv & Ft & Fp).
  { revert ts ps H1 H2 HF.
    induction vs as [|v vs IH]; intros [|t ts] [|p ps]; simpl; try discriminate; [done|].
    intros [= H1] [= H2] HF. inversion HF as [|? ? (? & ? & ?) HF']; subst.
    destruct (IH ts ps H1 H2 HF') as (? & ? & ?).
    repeat split; by constructor. }
  rewrite !Forall_app. repeat split; (eapply Forall_impl; [eassumption|done]).
Qed.

(** C10, as amended: after the assertion of lines 388-390 passed, the three
    arrays are three distinct objects, each the zero array of shape (number of
    matched files, 512, 512); an indexed assignment into one of them leaves
    every other array as it was; and when the loading loop returns, every
    image it read has a shape that numpy assignment accepts for a 512 by 512
    slot (equal, or 1, axis by axis, unit axes on the left dropped). *)
Theorem arrays_independent_and_loop_needs_fitting_images s0 s s1 s2 :
  Evaluate.gather_cell s0 = Ok tt s →
  Evaluate.allocate_cell s = Ok tt s1 →
  Evaluate.load_cell s1 = Ok tt s2 →
  ∃ (vs ts ps : list path) (lv lt lp : nat),
    globals s !! "virtual_stain_paths" = Some (VList (map VPath vs)) ∧
    globals s !! "target_stain_paths" = Some (VList (map VPath ts)) ∧
    globals s !! "phase_paths" = Some (VList (map VPath ps)) ∧
    length vs = length ts ∧ length ts = length ps ∧
    globals s1 !! "virtual_stains" = Some (VArr lv) ∧
    globals s1 !! "target_stains" = Some (VArr lt) ∧
    globals s1 !! "phase_images" = Some (VArr lp) ∧
    lv ≠ lt ∧ lv ≠ lp ∧ lt ≠ lp ∧
    heap s1 !! lv = Some (Np.zeros [length vs; 512; 512]) ∧
    heap s1 !! lt = Some (Np.zeros [length vs; 512; 512]) ∧
    heap s1 !! lp = Some (Np.zeros [length vs; 512; 512]) ∧
    (∀ arr idx val st st' l l',
       globals st !! arr = Some (VArr l) →
       store arr idx val st = Ok tt st' →
       l' ≠ l → heap st' !! l' = heap st !! l') ∧
    Forall (λ p, ∃ a, image_at (fs s1) p = Some a ∧
                      Np.assignable (shape a) [512; 512] = true)
           (vs ++ ts ++ ps).
Proof.
  intros Hg Ha Hl.
  destruct (gather_ok s0 s Hg) as (vs & ts & ps & Gv & Gt & Gp & L1 & L2 & _).
  destruct (allocate_ok s s1 _ Gv Ha) as (Av & At & Ap & Hh & _ & Pv & Pt & Pp).
  rewrite length_map in Hh.
  rewrite Gv in Pv. rewrite Gt in Pt. rewrite Gp in Pp.
  set (n := length (heap s)) in *.
  assert (Hv : heap s1 !! n = Some (Np.zeros [length vs; 512; 512])).
  { rewrite Hh. by apply list_lookup_middle. }
  assert (Ht : heap s1 !! S n = Some (Np.zeros [length vs; 512; 512])).
  { rewrite Hh. rewrite lookup_app_r by (subst n; lia).
    by replace (S n - length (heap s)) with 1 by (subst n; lia). }
  assert (Hp : heap s1 !! S (S n) = Some (Np.zeros [length vs; 512; 512])).
  { rewrite Hh. rewrite lookup_app_r by (subst n; lia).
    by replace (S (S n) - length (heap s)) with 2 by (subst n; lia). }
  exists vs, ts, ps, n, (S n), (S (S n)).
  repeat (split; [done || lia|]).
  split; [apply store_frame|].
  apply zip3_fits; [done..|].
  assert (L : loading (length vs) n (S n) (S (S n)) (fs s1) s1).
  { split; eauto. }
  clear Hh Hv Ht Hp Ha Hg.
  destruct s1 as [g o h f tm tr]. cbn [globals fs] in *.
  revert Hl. unfold Evaluate.load_cell. exec.
  intros Hl.
  by eapply (load_loop_ok (length vs) n (S n) (S (S n)) f _ 0); [lia..| |exact Hl].
Qed.

Lemma arrays_witness :
  Evaluate.gather_cell (Sample.before_evaluation Sample.no_checkpoint Sample.one_each)
    = Ok tt (Sample.gathered Sample.no_checkpoint Sample.one_each) ∧
  Evaluate.allocate_cell (Sample.gathered Sample.no_checkpoint Sample.one_each)
    = Ok tt (Sample.allocated Sample.no_checkpoint Sample.one_each) ∧
  Evaluate.load_cell (Sample.allocated Sample.no_checkpoint Sample.one_each)
    = Ok tt (final_state
               (Evaluate.load_cell (Sample.allocated Sample.no_checkpoint Sample.one_each))) ∧
  ∃ (vs ts ps : list path) (lv lt lp : nat),
    length vs = length ts ∧ length ts = length ps ∧
    lv ≠ lt ∧ lv ≠ lp ∧ lt ≠ lp ∧
    Forall (λ p, ∃ a, image_at (fs (Sample.allocated Sample.no_checkpoint Sample.one_each)) p
                        = Some a ∧
                      Np.assignable (shape a) [512; 512] = true)
           (vs ++ ts ++ ps).
Proof.
  assert (Hg : Evaluate.gather_cell
                 (Sample.before_evaluation Sample.no_checkpoint Sample.one_each)
               = Ok tt (Sample.gathered Sample.no_checkpoint Sample.one_each)).
  { apply outcome_eta. vm_compute. reflexivity. }
  assert (Ha : Evaluate.allocate_cell (Sample.gathered Sample.no_checkpoint Sample.one_each)
               = Ok tt (Sample.allocated Sample.no_checkpoint Sample.one_each)).
  { apply outcome_eta. vm_compute. reflexivity. }
  assert (Hl : Evaluate.load_cell (Sample.allocated Sample.no_checkpoint Sample.one_each)
               = Ok tt (final_state (Evaluate.load_cell
                                       (Sample.allocated Sample.no_checkpoint Sample.one_each)))).
  { apply outcome_eta. vm_compute. reflexivity. }
  repeat (split; [assumption|]).
  destruct (arrays_independent_and_loop_needs_fitting_images _ _ _ _ Hg Ha Hl)
    as (vs & ts & ps & lv & lt & lp & _ & _ & _ & ? & ? & _ & _ & _ & ? & ? & ? & _ & _ & _ & _ & ?).
  exists vs, ts, ps, lv, lt, lp. repeat (split; [assumption|]). assumption.
Defined.

(** C10 as stated fails: three files that each hold one row of 512 pixels
    are loaded without an exception, the row being repeated 512 times in its
    slot, although no image read is 512 by 512. *)
Lemma one_row_images_load :
  raised ((Evaluate.allocate_cell ;; Evaluate.load_cell)
            (Sample.gathered Sample.no_checkpoint Sample.one_each)) = None ∧
  globals (Sample.gathered Sample.no_checkpoint Sample.one_each) !! "virtual_stain_paths"
    = Some (VList [VPath ["results"; "img_0.tiff"]]) ∧
  shape <$> image_at (fs (Sample.gathered Sample.no_checkpoint Sample.one_each))
              ["results"; "img_0.tiff"] = Some [1; 512] ∧
  bool_decide ([1; 512] = [512; 512]) = false ∧
  match heap (final_state ((Evaluate.allocate_cell ;; Evaluate.load_cell)
                             (Sample.gathered Sample.no_checkpoint Sample.one_each))) !! 0 with
  | Some a => (length (Np.row a 0) =? 512 * 512) && forallb (Qeq_bool 3) (Np.row a 0)
  | None => false
  end = true.
Proof.
  repeat split; vm_compute; reflexivity.
Qed.

(** ** Part 3: the counting assertion and the cellpose cell *)




(** C1, what the code does instead: fed statement by statement, the cell of
    lines 521-530 runs cellpose twice on the virtual-stain directory and never
    on [path_to_targets], then raises [NameError] for [path_to_predictions]
    before any mask list is bound; compiled as a whole, the cell is rejected
    for the text of line 529 and nothing of it runs. *)
Theorem cellpose_cell_segments_results_twice (w : world) s rd folder task :
  evaluable s rd folder task →
  globals s !! "path_to_predictions" = None →
  (∃ s', run_stmts (Evaluate.cellpose_stmts w) s
           = Raise (NameError "path_to_predictions") s' ∧
         trace s' = trace s ++
           [EvCall "python -m cellpose" [VPath rd; VStr "nuclei"; VInt 0; VStr "--save_tiff"];
            EvCall "python -m cellpose" [VPath rd; VStr "nuclei"; VInt 0; VStr "--save_tiff"]] ∧
         fs s' = cellpose_writes w rd "nuclei" (cellpose_writes w rd "nuclei" (fs s)) ∧
         globals s' !! "path_to_targets" = Some (VPath (folder ++ ["test"])) ∧
         globals s' !! "predicted_masks" = globals s !! "predicted_masks" ∧
         globals s' !! "target_masks" = globals s !! "target_masks") ∧
  (∃ text, run_cell (Evaluate.cellpose_stmts w) s = Raise (SyntaxError text) s).
Proof.
  intros E Hp. from_evaluable E. split.
  - eexists. split.
    { unfold Evaluate.cellpose_stmts. cbn [run_stmts]. exec. reflexivity. }
    cbv [globals trace fs]. lookups. repeat split; try reflexivity.
    by rewrite <- !app_assoc.
  - eexists. reflexivity.
Qed.

Lemma cellpose_cell_witness :
  evaluable (Sample.measured Sample.no_checkpoint Sample.one_each)
            ["results"] Sample.tiff_files "nuclei" ∧
  globals (Sample.measured Sample.no_checkpoint Sample.one_each) !! "path_to_predictions"
    = None ∧
  cellpose_dirs
    (trace (final_state (run_stmts (Evaluate.cellpose_stmts Sample.no_checkpoint)
                           (Sample.measured Sample.no_checkpoint Sample.one_each))))
    = [VPath ["results"]; VPath ["results"]] ∧
  ∃ text, run_cell (Evaluate.cellpose_stmts Sample.no_checkpoint)
            (Sample.measured Sample.no_checkpoint Sample.one_each)
          = Raise (SyntaxError text) (Sample.measured Sample.no_checkpoint Sample.one_each).
Proof.
  assert (E : evaluable (Sample.measured Sample.no_checkpoint Sample.one_each)
                        ["results"] Sample.tiff_files "nuclei").
  { split; vm_compute; eauto. }
  assert (U : globals (Sample.measured Sample.no_checkpoint Sample.one_each)
                !! "path_to_predictions" = None).
  { vm_compute. reflexivity. }
  split; [exact E|]. split; [exact U|].
  split; [vm_compute; reflexivity|].
  exact (proj2 (cellpose_cell_segments_results_twice Sample.no_checkpoint _ _ _ _ E U)).
Defined.

(** ** Parts 3 and 4: the options handed to the runner and to the sampler *)

Lemma options_cell_sets (w : world) s s' :
  Evaluate.options_cell w s = Ok tt s' →
  opt s' !! "nThreads" = Some (VInt 1) ∧
  opt s' !! "batchSize" = Some (VInt 1) ∧
  opt s' !! "serial_batches" = Some (VBool true) ∧
  opt s' !! "no_flip" = Some (VBool true) ∧
  opt s' !! "results_dir" = test_options w !! "results_dir" ∧
  opt s' !! "how_many" = test_options w !! "how_many".
Proof.
  destruct s as [g o h f tm tr].
  unfold Evaluate.options_cell.
  exec.
  all: intros H; apply Ok_inv in H; subst s'.
  all: cbv [opt]; repeat split; lookups; reflexivity.
Qed.

Lemma sampler_cell_sets s s' :
  Evaluate.sampler_cell s = Ok tt s' →
  opt s' !! "variational_inf_runs" = Some (VInt 100) ∧
  opt s' !! "dropout_variation_inf" = Some (VBool true).
Proof.
  destruct s as [g o h f tm tr].
  unfold Evaluate.sampler_cell.
  exec.
  all: intros H; apply Ok_inv in H; subst s'.
  all: cbv [opt]; repeat split; lookups; reflexivity.
Qed.

Lemma batches_of_one fuel (l : list Runner.example) :
  length l ≤ fuel → Runner.batches_of fuel 1 l = map (λ x, [x]) l.
Proof.
  revert l. induction fuel as [|fuel IH]; intros [|x l] Hl; simpl in *; try done; [lia|].
  rewrite drop_0. f_equal. apply IH. lia.
Qed.

Lemma flat_map_singletons {A B} (f : A → B) (l : list A) :
  flat_map (λ batch, map f batch) (map (λ x, [x]) l) = map f l.
Proof. induction l as [|x l IH]; simpl; by rewrite ?IH. Qed.

Lemma load_data_serial shuffle flip (opts : gmap string value) dataset :
  opts !! "serial_batches" = Some (VBool true) →
  opts !! "no_flip" = Some (VBool true) →
  opts !! "batchSize" = Some (VInt 1) →
  Runner.load_data shuffle flip opts dataset = map (λ x, [x]) dataset.
Proof.
  intros Hs Hf Hb. unfold Runner.load_data. rewrite Hs, Hf, Hb. simpl.
  by apply batches_of_one.
Qed.



(** One sample has no dispersion. *)
Lemma variance_single x : (Runner.variance [x] == 0)%Q.
Proof.
  unfold Runner.variance, Runner.mean, Runner.qsum. simpl.
  unfold inject_Z. field.
Qed.

Lemma uncertainty_single (smp : Runner.image) :
  Forall (λ v, (v == 0)%Q) (Runner.uncertainty_map [smp]).
Proof.
  unfold Runner.uncertainty_map. apply Forall_forall. intros v Hv.
  apply list_elem_of_In in Hv. apply in_map_iff in Hv as (j & <- & _).
  apply variance_single.
Qed.



(** * Further properties of the notebook *)

(** ** Case analysis that keeps what it learns *)

Lemma py_int_total w v :
  (∃ n, ∀ s, Train.py_int w v s = Ok n s) ∨ (∃ e, ∀ s, Train.py_int w v s = Raise e s).
Proof.
  destruct v; cbv [Train.py_int ret raise]; eauto.
  destruct (int_of_str w s); eauto.
Qed.

Ltac unstick_keep :=
  match goal with
  | |- context [match ?g !! ?x with _ => _ end] => destruct (g !! x) eqn:?
  | |- context [match Train.py_int ?w ?v ?st with _ => _ end] =>
      let n := fresh "n" in
      let e := fresh "e" in
      let H := fresh "Hint" in
      destruct (py_int_total w v) as [[n H]|[e H]]; rewrite (H st)
  | |- context [match ?v with VNone => _ | _ => _ end] => is_var v; destruct v
  | |- context [match ?x with Some _ => _ | None => _ end] => destruct x eqn:?
  | |- context [if ?b then _ else _] => destruct b eqn:?
  | |- context [match ?x with Returns _ => _ | Raises _ => _ end] => destruct x eqn:?
  end;
  cbv beta iota; lookups; cbv beta iota.
Ltac exec_keep := steps; repeat (unstick_keep; steps).

(** A key that none of the listed ones is looks up in the base map. *)
Ltac other_key a :=
  rewrite lookup_puts; cbn [assoc];
  repeat match goal with
         | |- context [String.eqb ?k a] =>
             destruct (String.eqb_spec k a) as [<-|?]; [done|]
         end;
  reflexivity.

(** ** Part 1: the set-up cells *)

(** Every way lines 66-183 can end. *)
Lemma prelude_cases w s0 r :
  Train.prelude w s0 = r →
  match r with
  | Ok _ s =>
      (∃ v n, train_options w !! "seed" = Some v ∧
              (∀ st, Train.py_int w v st = Ok n st) ∧
              trace s = trace s0 ++ setup_calls w n) ∧
      (∀ a, dashed a = false → a ≠ "name" → a ≠ "checkpoints_dir" → a ≠ "phase" →
            opt s !! a = train_options w !! a) ∧
      opt s !! "phase" = Some (VStr "val") ∧
      opt s !! "--batchSize" = Some (VStr "8") ∧
      heap s = heap s0 ∧ fs s = fs s0 ∧ test_metrics s = test_metrics s0
  | Raise e s =>
      (train_options w !! "seed" = None ∧ e = AttributeError "seed" ∨
       ∃ v, train_options w !! "seed" = Some v ∧ ∀ st, Train.py_int w v st = Raise e st) ∧
      trace s = trace s0 ++ [EvCall "TrainOptions().parse" []]
  end.
Proof.
  destruct s0 as [g o h f tm tr].
  unfold Train.prelude, Train.imported, imports,
    Train.setup_cell, Train.data_cell, Train.model_cell.
  exec_keep.
  all: intros <-; cbv [opt trace heap fs test_metrics].
  - split; [|split].
    + do 2 eexists. split; [reflexivity|]. split; [done|].
      unfold setup_calls. by rewrite <- !app_assoc.
    + intros a Hd. unfold dashed in Hd. intros. other_key a.
    + lookups. done.
  - split; [|done]. right. eauto.
  - split; [|done]. by left.
Qed.

(** X1: the dictionaries merged into [opt.__dict__] on lines 132 and 173
    only add keys that start with two dashes: whatever the parser returned
    for an attribute other than [name], [checkpoints_dir] and [phase] is what
    the attribute still holds when the set-up is over.  The batch size 8 of
    line 170 sits under [--batchSize]; [opt.batchSize] is the parser's. *)
Theorem dashed_keys_leave_parsed_training_options w s0 s :
  Train.prelude w s0 = Ok tt s →
  (∀ a, dashed a = false → a ≠ "name" → a ≠ "checkpoints_dir" → a ≠ "phase" →
        opt s !! a = train_options w !! a) ∧
  opt s !! "--batchSize" = Some (VStr "8") ∧
  opt s !! "batchSize" = train_options w !! "batchSize".
Proof.
  intros H. destruct (prelude_cases w s0 _ H) as (_ & Ha & _ & Hb & _).
  split; [exact Ha|]. split; [exact Hb|]. by apply Ha.
Qed.

Lemma dashed_keys_witness :
  Train.prelude Sample.no_checkpoint (fresh [])
    = Ok tt (Sample.after_prelude Sample.no_checkpoint []) ∧
  opt (Sample.after_prelude Sample.no_checkpoint []) !! "--batchSize" = Some (VStr "8") ∧
  opt (Sample.after_prelude Sample.no_checkpoint []) !! "batchSize" = None.
Proof.
  assert (H : Train.prelude Sample.no_checkpoint (fresh [])
              = Ok tt (Sample.after_prelude Sample.no_checkpoint [])).
  { apply outcome_eta. vm_compute. reflexivity. }
  split; [exact H|].
  destruct (dashed_keys_leave_parsed_training_options Sample.no_checkpoint _ _ H)
    as (_ & Hb & Hp).
  split; [exact Hb|]. rewrite Hp. vm_compute. reflexivity.
Defined.





(** ** Part 1: resuming from a checkpoint *)

Section Resuming.
Variable w : world.

Lemma resumed_from_checkpoint s a b :
  ready w s →
  loadtxt w (checkpoint_index w) = Returns (VList [VInt a; VInt b]) →
  ∃ s', Train.resumed_training w s = Ok tt s' ∧
        globals s' !! "start_epoch" = Some (VInt a) ∧
        globals s' !! "epoch_iter" = Some (VInt b) ∧
        globals s' !! "iter_path" = Some (VPath (checkpoint_index w)) ∧
        trace s' = trace s ++
          [EvCall "np.loadtxt" [VPath (checkpoint_index w)];
           EvPrint "Resuming from epoch %d at iteration %d" [VInt a; VInt b];
           EvCall "train_model"
             [VObj "opt"; VObj "Pix2PixHDModel"; VObj "Visualizer"; VObj "Dataset";
              VObj "Dataset"; VObj "optimizer_G"; VObj "optimizer_D"; VInt a; VInt b;
              VPath (checkpoint_index w); VObj "SummaryWriter"]].
Proof.
  intros R Hl. from_ready R. unfold checkpoint_index in *. eexists. split.
  { unfold Train.resumed_training, Train.resume_block, Train.train_call. exec. reflexivity. }
  cbv [globals trace]. repeat split; lookups; try reflexivity.
  by rewrite <- !app_assoc.
Qed.

Lemma resumed_from_rows s x y r1 r2 :
  ready w s →
  loadtxt w (checkpoint_index w) = Returns (VList [VList (x :: y :: r1); VList r2]) →
  ∃ s', Train.resumed_training w s
          = Raise (TypeError "%d format: a real number is required") s' ∧
        globals s' !! "start_epoch" = Some (VList (x :: y :: r1)) ∧
        globals s' !! "epoch_iter" = Some (VList r2) ∧
        trace s' = trace s ++ [EvCall "np.loadtxt" [VPath (checkpoint_index w)]].
Proof.
  intros R Hl. from_ready R. unfold checkpoint_index in *.
  destruct x.
  all: eexists; split;
    [unfold Train.resumed_training, Train.resume_block, Train.train_call; exec; reflexivity|].
  all: cbv [globals trace]; repeat split; lookups; reflexivity.
Qed.

(** X4: under a resume request (line 187 assigning [True]), when the
    checkpoint index holds two integers, they become [start_epoch] and
    [epoch_iter], the resumption is announced with them, and [train_model] is
    called with them and with the path of the index, which is
    [checkpoints_dir/name/iter.txt]. *)
Theorem resume_continues_from_checkpoint files s a b :
  Train.prelude w (fresh files) = Ok tt s →
  loadtxt w (checkpoint_index w) = Returns (VList [VInt a; VInt b]) →
  raised (Train.resumed_training w s) = None ∧
  globals (final_state (Train.resumed_training w s)) !! "start_epoch" = Some (VInt a) ∧
  globals (final_state (Train.resumed_training w s)) !! "epoch_iter" = Some (VInt b) ∧
  globals (final_state (Train.resumed_training w s)) !! "iter_path"
    = Some (VPath (checkpoint_index w)) ∧
  trace (final_state (Train.resumed_training w s)) = trace s ++
    [EvCall "np.loadtxt" [VPath (checkpoint_index w)];
     EvPrint "Resuming from epoch %d at iteration %d" [VInt a; VInt b];
     EvCall "train_model"
       [VObj "opt"; VObj "Pix2PixHDModel"; VObj "Visualizer"; VObj "Dataset";
        VObj "Dataset"; VObj "optimizer_G"; VObj "optimizer_D"; VInt a; VInt b;
        VPath (checkpoint_index w); VObj "SummaryWriter"]].
Proof.
  intros H Hl. destruct (prelude_ready w files s H) as [R _].
  destruct (resumed_from_checkpoint s a b R Hl) as (s' & -> & ?).
  by cbn [raised final_state].
Qed.

(** X5: the [try] of lines 190-193 guards the read and the unpacking only.
    A checkpoint index of two lines with several numbers each unpacks into
    two rows, so the handler does not run; the two [%d] of line 194 then
    raise [TypeError], which nothing catches: the rows stay bound to
    [start_epoch] and [epoch_iter], nothing is printed and [train_model] is
    not called. *)
Theorem resume_announcement_is_not_guarded files s r1 r2 :
  Train.prelude w (fresh files) = Ok tt s →
  loadtxt w (checkpoint_index w) = Returns (VList [VList r1; VList r2]) →
  1 < length r1 →
  raised (Train.resumed_training w s)
    = Some (TypeError "%d format: a real number is required") ∧
  globals (final_state (Train.resumed_training w s)) !! "start_epoch" = Some (VList r1) ∧
  globals (final_state (Train.resumed_training w s)) !! "epoch_iter" = Some (VList r2) ∧
  trace (final_state (Train.resumed_training w s))
    = trace s ++ [EvCall "np.loadtxt" [VPath (checkpoint_index w)]].
Proof.
  intros H Hl Hr. destruct (prelude_ready w files s H) as [R _].
  destruct r1 as [|x [|y r1]]; simpl in Hr; try lia.
  destruct (resumed_from_rows s x y r1 r2 R Hl) as (s' & -> & ?).
  by cbn [raised final_state].
Qed.

End Resuming.

Lemma resume_continues_witness :
  Train.prelude Cases.checkpointed (fresh [])
    = Ok tt (Sample.after_prelude Cases.checkpointed []) ∧
  loadtxt Cases.checkpointed (checkpoint_index Cases.checkpointed)
    = Returns (VList [VInt 3; VInt 120]) ∧
  globals (final_state (Train.resumed_training Cases.checkpointed
                          (Sample.after_prelude Cases.checkpointed []))) !! "start_epoch"
    = Some (VInt 3).
Proof.
  assert (H : Train.prelude Cases.checkpointed (fresh [])
              = Ok tt (Sample.after_prelude Cases.checkpointed [])).
  { apply outcome_eta. vm_compute. reflexivity. }
  split; [exact H|]. split; [reflexivity|].
  exact (proj1 (proj2 (resume_continues_from_checkpoint Cases.checkpointed [] _ 3 120
                         H eq_refl))).
Defined.

Lemma resume_announcement_witness :
  Train.prelude Cases.two_by_two (fresh [])
    = Ok tt (Sample.after_prelude Cases.two_by_two []) ∧
  loadtxt Cases.two_by_two (checkpoint_index Cases.two_by_two)
    = Returns (VList [VList [VInt 3; VInt 120]; VList [VInt 4; VInt 0]]) ∧
  raised (Train.resumed_training Cases.two_by_two (Sample.after_prelude Cases.two_by_two []))
    = Some (TypeError "%d format: a real number is required").
Proof.
  assert (H : Train.prelude Cases.two_by_two (fresh [])
              = Ok tt (Sample.after_prelude Cases.two_by_two [])).
  { apply outcome_eta. vm_compute. reflexivity. }
  split; [exact H|]. split; [reflexivity|].
  refine (proj1 (resume_announcement_is_not_guarded Cases.two_by_two [] _ _ _ H eq_refl _)).
  simpl. lia.
Defined.

(** ** Part 3: the options of the pre-trained model *)

(** Every way lines 309-362 can end. *)
Lemma options_cases w s r :
  Evaluate.options_cell w s = r →
  match r with
  | Ok _ s' =>
      (is_Some (globals s !! "TestOptions") ∧
       is_Some (globals s !! "Path") ∧
       is_Some (globals s !! "output_image_folder")) ∧
      (∀ a, dashed a = false → a ≠ "name" → a ≠ "nThreads" → a ≠ "batchSize" →
            a ≠ "serial_batches" → a ≠ "no_flip" →
            opt s' !! a = test_options w !! a) ∧
      ∃ task rd,
        globals s !! "translation_task" = Some (VStr task) ∧
        opt s' !! "name" = Some (VStr ("dlmbl_vs" +:+ task)) ∧
        opt s' !! "--results_dir"
          = Some (VPath ["~"; "data"; "04_image_translation"; "pretrained_GAN";
                         "dlmbl_vs" +:+ task; "results"]) ∧
        opt s' !! "results_dir" = Some (VPath rd) ∧
        test_options w !! "results_dir" = Some (VPath rd) ∧
        trace s' = trace s ++ [EvCall "TestOptions().parse" [VBool false];
                               EvCall "Path.mkdir" [VPath rd]]
  | Raise _ _ =>
      ¬ (is_Some (globals s !! "TestOptions") ∧
         is_Some (globals s !! "Path") ∧
         is_Some (globals s !! "output_image_folder") ∧
         (∃ task, globals s !! "translation_task" = Some (VStr task)) ∧
         (∃ rd, test_options w !! "results_dir" = Some (VPath rd)))
  end.
Proof.
  destruct s as [g o h f tm tr].
  unfold Evaluate.options_cell.
  exec_keep.
  all: intros <-; cbv [opt trace globals].
  all: try (intros ([? ?] & [? ?] & [? ?] & (? & ?) & (? & ?)); congruence).
  split; [by eauto|]. split.
  - intros a Hd. unfold dashed in Hd. intros. other_key a.
  - do 2 eexists. lookups. repeat (split; [reflexivity|]).
    by rewrite <- !app_assoc.
Qed.

(** X6: the dictionaries merged into [opt.__dict__] on lines 321, 345 and
    356 only add keys that start with two dashes.  Apart from [name] and the
    four attributes set on lines 358-361, every attribute holds what the
    parser returned: [--results_dir], [--checkpoints_dir], [--how_many],
    [--which_epoch] and [--phase] of lines 351-355 do not reach
    [opt.results_dir] and the like.  The directory line 362 creates is the
    parser's [results_dir]; the path of line 353 sits under [--results_dir]. *)
Theorem dashed_keys_leave_parsed_test_options w s s' :
  Evaluate.options_cell w s = Ok tt s' →
  (∀ a, dashed a = false → a ≠ "name" → a ≠ "nThreads" → a ≠ "batchSize" →
        a ≠ "serial_batches" → a ≠ "no_flip" →
        opt s' !! a = test_options w !! a) ∧
  ∃ task rd,
    globals s !! "translation_task" = Some (VStr task) ∧
    opt s' !! "name" = Some (VStr ("dlmbl_vs" +:+ task)) ∧
    opt s' !! "--results_dir"
      = Some (VPath ["~"; "data"; "04_image_translation"; "pretrained_GAN";
                     "dlmbl_vs" +:+ task; "results"]) ∧
    opt s' !! "results_dir" = Some (VPath rd) ∧
    test_options w !! "results_dir" = Some (VPath rd) ∧
    trace s' = trace s ++ [EvCall "TestOptions().parse" [VBool false];
                           EvCall "Path.mkdir" [VPath rd]].
Proof. intros H. exact (proj2 (options_cases w s _ H)). Qed.

Lemma dashed_test_keys_witness :
  Evaluate.options_cell Sample.no_checkpoint
      (Sample.before_options Sample.no_checkpoint Sample.one_each)
    = Ok tt (final_state (Evaluate.options_cell Sample.no_checkpoint
                            (Sample.before_options Sample.no_checkpoint Sample.one_each))) ∧
  opt (final_state (Evaluate.options_cell Sample.no_checkpoint
                      (Sample.before_options Sample.no_checkpoint Sample.one_each)))
    !! "how_many" = Some (VInt 50).
Proof.
  assert (H : Evaluate.options_cell Sample.no_checkpoint
                (Sample.before_options Sample.no_checkpoint Sample.one_each)
              = Ok tt (final_state
                         (Evaluate.options_cell Sample.no_checkpoint
                            (Sample.before_options Sample.no_checkpoint Sample.one_each)))).
  { apply outcome_eta. vm_compute. reflexivity. }
  split; [exact H|].
  rewrite (proj1 (dashed_keys_leave_parsed_test_options Sample.no_checkpoint _ _ H) "how_many");
    [vm_compute; reflexivity|reflexivity|discriminate..].
Defined.


(** ** Part 3: globbing and sorting *)

Lemma string_compare_trans a b c :
  String.compare a b = Lt → String.compare b c = Lt → String.compare a c = Lt.
Proof.
  intros H1 H2. apply String_as_OT.cmp_lt.
  apply String_as_OT.lt_trans with b; by apply String_as_OT.cmp_lt.
Qed.

Lemma path_leb_total p q : Fs.path_leb p q = false → Fs.path_leb q p = true.
Proof.
  revert q. induction p as [|a p IH]; intros [|b q]; simpl; try done.
  rewrite (String.compare_antisym a b).
  destruct (String.compare b a); simpl; try done. apply IH.
Qed.

Lemma path_leb_trans p q r :
  Fs.path_leb p q = true → Fs.path_leb q r = true → Fs.path_leb p r = true.
Proof.
  revert q r. induction p as [|a p IH]; intros [|b q] [|c r]; simpl; try done.
  destruct (String.compare a b) eqn:Hab; [|clear IH|done].
  - apply String.compare_eq_iff in Hab as ->.
    destruct (String.compare b c); [apply IH|done..].
  - destruct (String.compare b c) eqn:Hbc; [| |done].
    + apply String.compare_eq_iff in Hbc as <-. by rewrite Hab.
    + by rewrite (string_compare_trans a b c).
Qed.

Lemma insert_sorted_perm p l : Permutation (Fs.insert_sorted p l) (p :: l).
Proof.
  induction l as [|q l IH]; simpl; [done|].
  destruct (Fs.path_leb p q); [done|].
  rewrite IH. apply perm_swap.
Qed.

Lemma sorted_perm l : Permutation (Fs.sorted l) l.
Proof.
  induction l as [|p l IH]; [done|].
  unfold Fs.sorted in *. simpl. rewrite insert_sorted_perm. by constructor.
Qed.

Lemma insert_sorted_Sorted p l : Sorted path_le l → Sorted path_le (Fs.insert_sorted p l).
Proof.
  induction 1 as [|q l Hs IH Hd]; simpl; [by repeat constructor|].
  destruct (Fs.path_leb p q) eqn:Hpq.
  - constructor; [by constructor|]. by constructor.
  - constructor; [done|].
    apply path_leb_total in Hpq.
    destruct Hd as [|r l Hqr]; simpl; [by constructor|].
    destruct (Fs.path_leb p r); by constructor.
Qed.

Lemma sorted_StronglySorted l : StronglySorted path_le (Fs.sorted l).
Proof.
  apply Sorted_StronglySorted.
  - intros p q r. apply path_leb_trans.
  - induction l as [|p l IH]; [constructor|].
    unfold Fs.sorted in *. simpl. by apply insert_sorted_Sorted.
Qed.

Lemma below_spec dir p : Fs.below dir p = true ↔ ∃ rest, rest ≠ [] ∧ p = dir ++ rest.
Proof.
  revert p. induction dir as [|d dir IH]; intros [|c p]; simpl.
  - split; [done|]. by intros (rest & ? & <-).
  - split; [|done]. intros _. by exists (c :: p).
  - split; [done|]. by intros (rest & _ & ?).
  - rewrite andb_true_iff, IH, String.eqb_eq. split.
    + intros (-> & rest & ? & ->). by exists rest.
    + intros (rest & ? & [= -> ->]). eauto.
Qed.


(** ** Part 3: gathering the results *)



(** ** numpy: what an indexed assignment writes *)

Lemma chunks_length sz count l : length (Np.chunks sz count l) = count.
Proof. revert l. induction count as [|c IH]; intros l; simpl; by rewrite ?IH. Qed.

Lemma chunks_Forall sz count l :
  count * sz ≤ length l → Forall (λ ch, length ch = sz) (Np.chunks sz count l).
Proof.
  revert l. induction count as [|c IH]; intros l Hl; simpl; constructor.
  - rewrite length_take. simpl in Hl. lia.
  - apply IH. rewrite length_drop. simpl in Hl. lia.
Qed.

Lemma concat_chunks sz count l :
  length l = count * sz → concat (Np.chunks sz count l) = l.
Proof.
  revert l. induction count as [|c IH]; intros l Hl; simpl.
  - by destruct l.
  - rewrite IH; [apply take_drop|]. rewrite length_drop. simpl in Hl. lia.
Qed.

Lemma concat_length_uniform (ls : list (list Q)) k :
  Forall (λ x, length x = k) ls → length (concat ls) = length ls * k.
Proof.
  induction 1 as [|x ls Hx _ IH]; simpl; [done|].
  rewrite length_app, IH, Hx. lia.
Qed.

Lemma broadcast_data_length src : ∀ dst d,
  Np.compatible src dst = true → length d = Np.size src →
  length (Np.broadcast_data src dst d) = Np.size dst.
Proof.
  induction src as [|s src IH]; intros [|n dst] d Hc Hd; simpl in *; try done.
  apply andb_true_iff in Hc as [Hs Hc].
  destruct (Nat.eqb_spec s n) as [->|Hne].
  - rewrite (concat_length_uniform _ (Np.size dst)).
    + by rewrite length_map, chunks_length.
    + apply Forall_map. eapply Forall_impl; [apply chunks_Forall; lia|].
      intros ch Hch. simpl. by apply IH.
  - simpl in Hs. apply Nat.eqb_eq in Hs. subst s.
    rewrite (concat_length_uniform _ (Np.size dst)).
    + by rewrite length_replicate.
    + apply Forall_replicate. apply IH; [done|lia].
Qed.

Lemma strip_ones_size extra : ∀ sh sh',
  Np.strip_ones extra sh = Some sh' → Np.size sh' = Np.size sh.
Proof.
  induction extra as [|e IH]; intros sh sh'; simpl; [by intros [= ->]|].
  destruct sh as [|[|[|?]] sh]; try done.
  intros H. apply IH in H. simpl. lia.
Qed.

Lemma replicate_ones_size k sh : Np.size (replicate k 1 ++ sh) = Np.size sh.
Proof. induction k as [|k IH]; simpl; [done|]. unfold Np.size in *. simpl in *. lia. Qed.

Lemma broadcast_length v dst d :
  well_formed v = true → Np.broadcast v dst = Some d → length d = Np.size dst.
Proof.
  unfold well_formed, Np.broadcast, Np.aligned. intros Hw%Nat.eqb_eq.
  destruct (Np.strip_ones _ _) as [src|] eqn:Hs; [|done].
  destruct (Np.compatible _ dst) eqn:Hc; [|done]. intros [= <-].
  apply broadcast_data_length; [done|].
  rewrite replicate_ones_size. by rewrite (strip_ones_size _ _ _ Hs).
Qed.

Lemma broadcast_data_same sh : ∀ d,
  length d = Np.size sh → Np.broadcast_data sh sh d = d.
Proof.
  induction sh as [|s sh IH]; intros d Hd; simpl; [done|].
  rewrite Nat.eqb_refl.
  assert (He : map (Np.broadcast_data sh sh) (Np.chunks (Np.size sh) s d)
               = Np.chunks (Np.size sh) s d).
  { rewrite <- (list_fmap_id (Np.chunks (Np.size sh) s d)) at 2.
    apply Forall_fmap_ext.
    eapply Forall_impl; [apply (chunks_Forall (Np.size sh) s d); simpl in Hd; lia|].
    intros ch Hch. by apply IH. }
  rewrite He. apply concat_chunks. simpl in Hd. lia.
Qed.

Lemma compatible_refl sh : Np.compatible sh sh = true.
Proof. induction sh as [|s sh IH]; simpl; [done|]. by rewrite Nat.eqb_refl, IH. Qed.

(** An image of exactly the shape of the slot is stored as it is. *)
Lemma broadcast_same v :
  well_formed v = true → Np.broadcast v (shape v) = Some (data v).
Proof.
  unfold well_formed, Np.broadcast, Np.aligned. intros Hw%Nat.eqb_eq.
  rewrite Nat.sub_diag. cbn [Np.strip_ones]. rewrite Nat.sub_diag. cbn [replicate app].
  rewrite compatible_refl. by rewrite broadcast_data_same.
Qed.

Lemma setitem_at a n rest i v d :
  shape a = n :: rest → i < n → Np.broadcast v rest = Some d →
  Np.setitem a (Z.of_nat i) v
    = Returns (mkArr (shape a)
                 (take (i * Np.size rest) (data a) ++ d
                  ++ drop (S i * Np.size rest) (data a))).
Proof.
  intros Hs Hi Hb. unfold Np.setitem. rewrite Hs, Hb.
  destruct (Z.ltb_spec (Z.of_nat i) 0); [lia|].
  destruct (Z.leb_spec 0 (Z.of_nat i)); [|lia].
  destruct (Z.ltb_spec (Z.of_nat i) (Z.of_nat n)); [|lia].
  simpl. by rewrite Nat2Z.id.
Qed.

Lemma row_of_assigned (da d : list Q) sz n i :
  length da = n * sz → length d = sz → i < n →
  take sz (drop (i * sz) (take (i * sz) da ++ d ++ drop (S i * sz) da)) = d.
Proof.
  intros Ha Hd Hi.
  rewrite drop_app_length'; [|rewrite length_take; nia].
  rewrite take_app_length'; done.
Qed.

Lemma row_beside_assigned (da d : list Q) sz n i j :
  length da = n * sz → length d = sz → i < n → j ≠ i →
  take sz (drop (j * sz) (take (i * sz) da ++ d ++ drop (S i * sz) da))
    = take sz (drop (j * sz) da).
Proof.
  intros Ha Hd Hi Hj.
  apply list_eq. intros k.
  destruct (decide (k < sz)) as [Hk|Hk].
  2: { rewrite !lookup_take_ge by lia. done. }
  rewrite !lookup_take_lt by done. rewrite !lookup_drop.
  destruct (decide (j < i)) as [Hlt|Hge].
  - rewrite lookup_app_l by (rewrite length_take; nia).
    rewrite lookup_take_lt by nia. done.
  - assert (i < j) by lia.
    rewrite lookup_app_r by (rewrite length_take; nia).
    rewrite length_take, lookup_app_r by nia.
    rewrite lookup_drop. f_equal. nia.
Qed.

Lemma assignable_broadcast v dst :
  Np.assignable (shape v) dst = true → ∃ d, Np.broadcast v dst = Some d.
Proof.
  unfold Np.assignable, Np.broadcast.
  destruct (Np.aligned (shape v) dst); [|done]. intros ->. eauto.
Qed.

Lemma assigned_rows a n rest i v d :
  shape a = n :: rest → i < n → well_formed a = true → well_formed v = true →
  Np.broadcast v rest = Some d →
  ∃ a', Np.setitem a (Z.of_nat i) v = Returns a' ∧
        shape a' = n :: rest ∧ well_formed a' = true ∧
        Np.row a' i = d ∧ ∀ j, j ≠ i → Np.row a' j = Np.row a j.
Proof.
  intros Hs Hi Ha Hv Hb.
  pose proof (broadcast_length v rest d Hv Hb) as Hd.
  unfold well_formed in Ha. apply Nat.eqb_eq in Ha. rewrite Hs in Ha.
  change (Np.size (n :: rest)) with (n * Np.size rest) in Ha.
  eexists. split; [by apply (setitem_at a n rest i v d)|].
  unfold well_formed, Np.row. cbn [shape data]. rewrite Hs. cbn [tail].
  split; [done|]. split; [|split].
  - apply Nat.eqb_eq. change (Np.size (n :: rest)) with (n * Np.size rest).
    rewrite !length_app, length_take, length_drop. nia.
  - by apply (row_of_assigned _ _ _ n).
  - intros j Hj. by apply (row_beside_assigned _ _ _ n).
Qed.


(** ** Part 3: the loading loop, run to its end *)

(** Execution that rewrites with what is known of the files and arrays. *)
Ltac fact1 :=
  match goal with
  | H : Fs.find_file ?p ?f = _ |- context [Fs.find_file ?p ?f] => rewrite H
  | H : fimage ?f = _ |- context [fimage ?f] => rewrite H
  | H : Np.setitem ?a ?k ?v = _ |- context [Np.setitem ?a ?k ?v] => rewrite H
  | H : shape ?a = _ |- context [shape ?a] => rewrite H
  | H : ?b = _ |- context [if ?b then _ else _] => rewrite H
  end; cbv beta iota.
Ltac run := steps; repeat (fact1; steps).

Lemma still_bound l (g : gmap string value) x :
  is_Some (g !! x) → is_Some (puts l g !! x).
Proof. intros H. rewrite lookup_puts. by destruct (assoc x l). Qed.

Lemma readable_fit_loads files p :
  readable_fit files p = true → ∃ d, loads_as files p d.
Proof.
  unfold readable_fit, loads_as. destruct (image_at files p) as [img|]; [|done].
  intros [Hw Hf]%andb_true_iff.
  destruct (assignable_broadcast img _ Hf) as [d Hd]. by exists d, img.
Qed.

Lemma loads_as_file files p d :
  loads_as files p d →
  ∃ f img, Fs.find_file p files = Some f ∧ fimage f = Some img ∧
           well_formed img = true ∧ Np.broadcast img [512; 512] = Some d.
Proof.
  intros (img & Hi & Hw & Hb). unfold image_at in Hi.
  destruct (Fs.find_file p files) as [f|] eqn:Hf; [|done]. by exists f, img.
Qed.

Lemma zeros_well_formed sh : well_formed (Np.zeros sh) = true.
Proof. unfold well_formed, Np.zeros. cbn [data shape]. rewrite length_replicate. apply Nat.eqb_refl. Qed.

Lemma load_body_run n lv lt lp i v t p dv dt dp s :
  stacked n lv lt lp s → i < n →
  loads_as (fs s) v dv → loads_as (fs s) t dt → loads_as (fs s) p dp →
  ∃ s', Evaluate.load_body i (VPath v, VPath t, VPath p) s = Ok tt s' ∧
        stacked n lv lt lp s' ∧
        fs s' = fs s ∧ opt s' = opt s ∧ test_metrics s' = test_metrics s ∧
        slot s' lv i = dv ∧ slot s' lt i = dt ∧ slot s' lp i = dp ∧
        (∀ j, j ≠ i → slot s' lv j = slot s lv j ∧ slot s' lt j = slot s lt j ∧
                      slot s' lp j = slot s lp j) ∧
        (∀ x, is_Some (globals s !! x) → is_Some (globals s' !! x)).
Proof.
  intros [Gv Gt Gp [rd Gi] (av & Hv & Sv & Wv) (at_ & Ht & St & Wt) (ap & Hp & Sp & Wp) Nvt Nvp Ntp]
         Hi Lv Lt Lp.
  destruct s as [g o h f tm tr]. cbn [globals heap fs opt test_metrics] in *.
  apply loads_as_file in Lv as (fv & imgv & Fv & Iv & Wiv & Bv).
  apply loads_as_file in Lt as (ft & imgt & Ft & It & Wit & Bt).
  apply loads_as_file in Lp as (fp & imgp & Fp & Ip & Wip & Bp).
  destruct (assigned_rows av n [512; 512] i imgv dv Sv Hi Wv Wiv Bv)
    as (av' & Ev & Sv' & Wv' & Rv & Ov).
  destruct (assigned_rows at_ n [512; 512] i imgt dt St Hi Wt Wit Bt)
    as (at' & Et & St' & Wt' & Rt & Ot).
  destruct (assigned_rows ap n [512; 512] i imgp dp Sp Hi Wp Wip Bp)
    as (ap' & Ep & Sp' & Wp' & Rp & Op).
  assert (lv < length h) by by eapply lookup_lt_Some.
  assert (lt < length h) by by eapply lookup_lt_Some.
  assert (lp < length h) by by eapply lookup_lt_Some.
  clear Sv St Sp.
  eexists. split; [unfold Evaluate.load_body; run; reflexivity|].
  assert (Av : (<[lv:=av']> (<[lt:=at']> (<[lp:=ap']> h))) !! lv = Some av').
  { apply list_lookup_insert_eq. by rewrite !length_insert. }
  assert (At : (<[lv:=av']> (<[lt:=at']> (<[lp:=ap']> h))) !! lt = Some at').
  { rewrite list_lookup_insert_ne by done. apply list_lookup_insert_eq.
    by rewrite !length_insert. }
  assert (Ap : (<[lv:=av']> (<[lt:=at']> (<[lp:=ap']> h))) !! lp = Some ap').
  { rewrite !list_lookup_insert_ne by done. by apply list_lookup_insert_eq. }
  unfold slot. cbv [globals heap fs opt test_metrics]. rewrite Av, At, Ap, Hv, Ht, Hp.
  split.
  { split; unfold stack; cbv [globals heap]; lookups; try done; eauto. }
  repeat (split; [done|]). split.
  - intros j Hj. by rewrite Ov, Ot, Op.
  - intros x. apply still_bound.
Qed.

Lemma load_loop_run n lv lt lp : ∀ vs ts ps i s,
  stacked n lv lt lp s →
  length vs = length ts → length ts = length ps → i + length vs ≤ n →
  Forall (λ p, readable_fit (fs s) p = true) vs →
  Forall (λ p, readable_fit (fs s) p = true) ts →
  Forall (λ p, readable_fit (fs s) p = true) ps →
  ∃ s', Evaluate.load_loop i (zip3 (map VPath vs) (map VPath ts) (map VPath ps)) s
          = Ok tt s' ∧
        stacked n lv lt lp s' ∧
        fs s' = fs s ∧ opt s' = opt s ∧ test_metrics s' = test_metrics s ∧
        (∀ j p, vs !! j = Some p → loads_as (fs s) p (slot s' lv (i + j))) ∧
        (∀ j p, ts !! j = Some p → loads_as (fs s) p (slot s' lt (i + j))) ∧
        (∀ j p, ps !! j = Some p → loads_as (fs s) p (slot s' lp (i + j))) ∧
        (∀ k, k < i → slot s' lv k = slot s lv k ∧ slot s' lt k = slot s lt k ∧
                      slot s' lp k = slot s lp k) ∧
        (∀ x, is_Some (globals s !! x) → is_Some (globals s' !! x)).
Proof.
  induction vs as [|v vs IH]; intros [|t ts] [|p ps] i s K; simpl;
    try (intros; discriminate).
  { intros _ _ _ _ _ _. exists s.
    repeat (split; [done|]). done. }
  intros [= L1] [= L2] Hn Fv Ft Fp.
  apply Forall_cons in Fv as [Rv Fv].
  apply Forall_cons in Ft as [Rt Ft].
  apply Forall_cons in Fp as [Rp Fp].
  destruct (readable_fit_loads _ _ Rv) as [dv Lv].
  destruct (readable_fit_loads _ _ Rt) as [dt Lt].
  destruct (readable_fit_loads _ _ Rp) as [dp Lp].
  destruct (load_body_run n lv lt lp i v t p dv dt dp s K) as
    (s1 & E1 & K1 & F1 & O1 & M1 & Sv & St & Sp & Other & B1); [lia|done..|].
  destruct (IH ts ps (S i) s1 K1 L1 L2) as
    (s' & E & K' & F' & O' & M' & Qv & Qt & Qp & Before & B'); [lia|by rewrite F1..|].
  exists s'. split.
  { unfold bind. by rewrite E1. }
  rewrite F1 in *.
  split; [done|]. split; [done|]. split; [congruence|]. split; [congruence|].
  destruct (Before i) as (Bv & Bt & Bp); [lia|].
  split; [|split; [|split; [|split]]].
  - intros [|j] q; simpl.
    + intros [= <-]. by rewrite Nat.add_0_r, Bv, Sv.
    + intros Hq. rewrite Nat.add_succ_r. by apply Qv.
  - intros [|j] q; simpl.
    + intros [= <-]. by rewrite Nat.add_0_r, Bt, St.
    + intros Hq. rewrite Nat.add_succ_r. by apply Qt.
  - intros [|j] q; simpl.
    + intros [= <-]. by rewrite Nat.add_0_r, Bp, Sp.
    + intros Hq. rewrite Nat.add_succ_r. by apply Qp.
  - intros k Hk. destruct (Before k) as (-> & -> & ->); [lia|]. apply Other. lia.
  - intros x Hx. by apply B', B1.
Qed.

Lemma allocate_run s l :
  globals s !! "virtual_stain_paths" = Some (VList l) →
  is_Some (globals s !! "np") →
  ∃ s1, Evaluate.allocate_cell s = Ok tt s1 ∧
        globals s1 !! "virtual_stains" = Some (VArr (length (heap s))) ∧
        globals s1 !! "target_stains" = Some (VArr (S (length (heap s)))) ∧
        globals s1 !! "phase_images" = Some (VArr (S (S (length (heap s))))) ∧
        heap s1 = heap s ++ [Np.zeros [length l; 512; 512];
                             Np.zeros [length l; 512; 512];
                             Np.zeros [length l; 512; 512]] ∧
        fs s1 = fs s ∧ opt s1 = opt s ∧ test_metrics s1 = test_metrics s ∧
        trace s1 = trace s ∧
        (∀ x, x ≠ "virtual_stains" → x ≠ "target_stains" → x ≠ "phase_images" →
              globals s1 !! x = globals s !! x).
Proof.
  intros Hl [np Hnp].
  assert (∃ s1, Evaluate.allocate_cell s = Ok tt s1) as [s1 H1].
  { destruct s as [g o h f tm tr]. cbn [globals] in *. eexists.
    unfold Evaluate.allocate_cell. steps.
    rewrite list_lookup_middle by done. steps.
    rewrite lookup_app_l by (rewrite length_app; simpl; lia).
    rewrite list_lookup_middle by done. steps. reflexivity. }
  exists s1. split; [done|].
  destruct (allocate_ok s s1 l Hl H1) as (Av & At & Ap & Hh & Hf & _).
  repeat (split; [done|]).
  clear Av At Ap Hh Hf. revert H1.
  destruct s as [g o h f tm tr]. cbn [globals] in *.
  unfold Evaluate.allocate_cell. steps.
  rewrite list_lookup_middle by done. steps.
  rewrite lookup_app_l by (rewrite length_app; simpl; lia).
  rewrite list_lookup_middle by done. steps.
  intros H1. apply Ok_inv in H1. subst s1. cbv [globals opt test_metrics trace].
  repeat (split; [done|]). intros x ? ? ?. other_key x.
Qed.

Lemma allocate_load_run s vs ts ps :
  globals s !! "virtual_stain_paths" = Some (VList (map VPath vs)) →
  globals s !! "target_stain_paths" = Some (VList (map VPath ts)) →
  globals s !! "phase_paths" = Some (VList (map VPath ps)) →
  length vs = length ts → length ts = length ps →
  is_Some (globals s !! "np") → is_Some (globals s !! "tqdm") →
  is_Some (globals s !! "imread") →
  Forall (λ p, readable_fit (fs s) p = true) (vs ++ ts ++ ps) →
  ∃ s' lv lt lp,
    (Evaluate.allocate_cell ;; Evaluate.load_cell) s = Ok tt s' ∧
    stacked (length vs) lv lt lp s' ∧
    (∀ i p, vs !! i = Some p → loads_as (fs s) p (slot s' lv i)) ∧
    (∀ i p, ts !! i = Some p → loads_as (fs s) p (slot s' lt i)) ∧
    (∀ i p, ps !! i = Some p → loads_as (fs s) p (slot s' lp i)) ∧
    fs s' = fs s ∧ opt s' = opt s ∧ test_metrics s' = test_metrics s ∧
    (∀ x, is_Some (globals s !! x) → is_Some (globals s' !! x)).
Proof.
  intros Gv Gt Gp L1 L2 Hnp [tq Htq] Him HF.
  apply Forall_app in HF as [Fv HF]. apply Forall_app in HF as [Ft Fp].
  destruct (allocate_run s _ Gv Hnp) as (s1 & E1 & Av & At & Ap & Hh & Hf & Ho & Hm & _ & Same).
  rewrite length_map in Hh.
  set (n := length (heap s)) in *.
  assert (K : stacked (length vs) n (S n) (S (S n)) s1).
  { split; try done; try lia.
    - by rewrite Same.
    - exists (Np.zeros [length vs; 512; 512]). split; [|split; [done|apply zeros_well_formed]].
      rewrite Hh. by apply list_lookup_middle.
    - exists (Np.zeros [length vs; 512; 512]). split; [|split; [done|apply zeros_well_formed]].
      rewrite Hh. rewrite lookup_app_r by (subst n; lia).
      by replace (S n - length (heap s)) with 1 by (subst n; lia).
    - exists (Np.zeros [length vs; 512; 512]). split; [|split; [done|apply zeros_well_formed]].
      rewrite Hh. rewrite lookup_app_r by (subst n; lia).
      by replace (S (S n) - length (heap s)) with 2 by (subst n; lia). }
  destruct (load_loop_run (length vs) n (S n) (S (S n)) vs ts ps 0 s1 K L1 L2)
    as (s' & E & K' & F' & O' & M' & Qv & Qt & Qp & _ & B'); [lia|by rewrite Hf..|].
  exists s', n, (S n), (S (S n)).
  rewrite Hf in *.
  split.
  { unfold bind. rewrite E1. rewrite <- E.
    assert (G1 : globals s1 !! "tqdm" = Some tq) by by rewrite Same.
    assert (G2 : globals s1 !! "virtual_stain_paths" = Some (VList (map VPath vs)))
      by by rewrite Same.
    assert (G3 : globals s1 !! "target_stain_paths" = Some (VList (map VPath ts)))
      by by rewrite Same.
    assert (G4 : globals s1 !! "phase_paths" = Some (VList (map VPath ps)))
      by by rewrite Same.
    clear -G1 G2 G3 G4. destruct s1 as [g1 o1 h1 f1 tm1 tr1]. cbn [globals] in *.
    unfold Evaluate.load_cell. steps. reflexivity. }
  split; [done|]. repeat (split; [done|]).
  split; [congruence|]. split; [congruence|].
  intros x Hx. apply B'.
  destruct (decide (x = "virtual_stains")) as [->|?]; [by rewrite Av|].
  destruct (decide (x = "target_stains")) as [->|?]; [by rewrite At|].
  destruct (decide (x = "phase_images")) as [->|?]; [by rewrite Ap|].
  by rewrite Same.
Qed.


(** ** Part 3: the pixel-level metrics *)

Lemma metrics_loop_run w lt lv at_ av : ∀ count i s,
  heap s !! lt = Some at_ → heap s !! lv = Some av →
  is_Some (globals s !! "metrics") → is_Some (globals s !! "np") →
  is_Some (globals s !! "test_metrics") →
  ∃ s', Evaluate.metrics_loop w lt lv i count s = Ok tt s' ∧
        heap s' = heap s ∧ fs s' = fs s ∧ opt s' = opt s ∧
        (∀ k, i ≤ k < i + count →
              test_metrics s' !! k = Some (scores w (Np.row at_ k) (Np.row av k))) ∧
        (∀ k, ¬ (i ≤ k < i + count) → test_metrics s' !! k = test_metrics s !! k) ∧
        trace s' = trace s ++ flat_map (metric_calls lt lv) (seq i count) ∧
        (∀ x, is_Some (globals s !! x) → is_Some (globals s' !! x)).
Proof.
  induction count as [|count IH]; intros i s Hlt Hlv Hm Hn Ht.
  { exists s. simpl. rewrite app_nil_r. repeat (split; [done|]).
    split; [intros k ?; lia|done]. }
  destruct Hm as [x Hm], Hn as [y Hn], Ht as [z Ht].
  destruct s as [g o h f tm tr]. cbn [globals heap fs opt test_metrics trace] in *.
  eassert (Hstep : Evaluate.metrics_loop w lt lv i (S count) (mkState g o h f tm tr)
                   = Evaluate.metrics_loop w lt lv (S i) count _).
  { cbn [Evaluate.metrics_loop]. unfold view_data. run. reflexivity. }
  rewrite Hstep. clear Hstep.
  edestruct (IH (S i)) as (s' & E & Hh & Hf & Ho & Hin & Hout & Htr & Hb);
    [| | | | |exists s'; split; [exact E|]]; cbn [globals heap]; lookups; try done; eauto.
  cbn [heap fs opt test_metrics trace globals] in *.
  repeat (split; [done|]). split; [|split; [|split]].
  - intros k Hk. destruct (decide (k = i)) as [->|Hne].
    + rewrite Hout by lia. by rewrite lookup_insert_eq.
    + apply Hin. lia.
  - intros k Hk. rewrite Hout by lia. rewrite lookup_insert_ne by lia. done.
  - rewrite Htr. simpl. unfold metric_calls at 2. by rewrite <- !app_assoc.
  - intros key Hkey. apply Hb. by apply still_bound.
Qed.

Lemma metrics_cell_run w s lt lv at_ av nt nv rt rv :
  globals s !! "target_stains" = Some (VArr lt) →
  globals s !! "virtual_stains" = Some (VArr lv) →
  heap s !! lt = Some at_ → heap s !! lv = Some av →
  shape at_ = nt :: rt → shape av = nv :: rv →
  is_Some (globals s !! "metrics") → is_Some (globals s !! "np") →
  is_Some (globals s !! "test_metrics") →
  ∃ s', Evaluate.metrics_cell w s = Ok tt s' ∧
        (∀ i, i < Nat.min nt nv →
              test_metrics s' !! i = Some (scores w (Np.row at_ i) (Np.row av i))) ∧
        (∀ i, Nat.min nt nv ≤ i → test_metrics s' !! i = test_metrics s !! i) ∧
        trace s' = trace s ++ flat_map (metric_calls lt lv) (seq 0 (Nat.min nt nv))
                           ++ [EvCall "test_metrics.boxplot" []] ∧
        heap s' = heap s ∧ fs s' = fs s ∧ opt s' = opt s.
Proof.
  intros Gt Gv Ht Hv St Sv Hm Hn Htm.
  destruct (metrics_loop_run w lt lv at_ av (Nat.min nt nv) 0 s Ht Hv Hm Hn Htm)
    as (s1 & E & Hh & Hf & Ho & Hin & Hout & Htr & Hb).
  destruct (Hb "test_metrics" Htm) as [z Hz].
  destruct s as [g o h f tm tr], s1 as [g1 o1 h1 f1 tm1 tr1].
  cbn [globals heap fs opt test_metrics trace] in *.
  eexists. split.
  { unfold Evaluate.metrics_cell. run. rewrite E. cbv beta iota. run. reflexivity. }
  cbn [globals heap fs opt test_metrics trace] in *.
  split; [intros i Hi; apply Hin; lia|].
  split; [intros i Hi; apply Hout; lia|].
  rewrite Htr. by rewrite <- !app_assoc.
Qed.


(** ** Part 3: from the sorted lists to the metric rows *)


(** ** Part 3: the instance-level scores *)

Lemma image_at_file files p img :
  image_at files p = Some img →
  ∃ f, Fs.find_file p files = Some f ∧ fimage f = Some img.
Proof.
  unfold image_at. destruct (Fs.find_file p files) as [f|]; [|done]. eauto.
Qed.

(** X14: lines 535-554 in a kernel where [virtal_stain_mask], the name line
    551 reads, is not bound, with at least one predicted mask and one target
    mask, both readable: the first turn of the loop reads the two masks,
    binds [virtual_stain_mask] to the first, and raises [NameError] for the
    misspelt name.  [image_sets] is still empty and
    [gen_segmentation_scores] is not called. *)
Theorem scoring_stops_at_the_misspelt_name s p t pms tms mp mt :
  is_Some (globals s !! "pd") → is_Some (globals s !! "imread") →
  globals s !! "predicted_masks" = Some (VList (VPath p :: pms)) →
  globals s !! "target_masks" = Some (VList (VPath t :: tms)) →
  image_at (fs s) p = Some mp → image_at (fs s) t = Some mt →
  globals s !! "virtal_stain_mask" = None →
  ∃ s', Evaluate.scoring_cell s = Raise (NameError "virtal_stain_mask") s' ∧
        globals s' !! "virtual_stain_mask" = Some (VImg mp) ∧
        globals s' !! "fluorescence_mask" = Some (VImg mt) ∧
        globals s' !! "image_sets" = Some (VList []) ∧
        trace s' = trace s ++ [EvCall "imread" [VPath p]; EvCall "imread" [VPath t]].
Proof.
  intros [pd Hpd] [im Him] Gp Gt Ip It Hu.
  destruct s as [g o h f tm tr]. cbn [globals fs trace] in *.
  apply image_at_file in Ip as (fp & Fp & Ip).
  apply image_at_file in It as (ft & Ft & It).
  eexists. split.
  { unfold Evaluate.scoring_cell. run. cbn [length Evaluate.scoring_loop]. run.
    cbn [lookup list_lookup]. run. cbn [lookup list_lookup]. run.
    cbn [lookup list_lookup]. run. reflexivity. }
  cbv [globals trace]. lookups. repeat split; try reflexivity.
  by rewrite <- !app_assoc.
Qed.


Lemma scoring_loop_run stale (pms tms : list path) files : ∀ count i s acc,
  is_Some (globals s !! "imread") →
  globals s !! "predicted_masks" = Some (VList (map VPath pms)) →
  globals s !! "target_masks" = Some (VList (map VPath tms)) →
  globals s !! "image_sets" = Some (VList acc) →
  globals s !! "virtal_stain_mask" = Some stale →
  fs s = files →
  i + count ≤ length pms → i + count ≤ length tms →
  Forall (λ p, is_Some (image_at files p)) pms →
  Forall (λ p, is_Some (image_at files p)) tms →
  ∃ s' new reads,
    Evaluate.scoring_loop i count s = Ok tt s' ∧
    globals s' !! "image_sets" = Some (VList (acc ++ new)) ∧
    length new = count ∧
    (∀ j p t mt, pms !! (i + j) = Some p → tms !! (i + j) = Some t →
       image_at files t = Some mt → j < count →
       new !! j = Some (image_set (VStr (Fs.basename p)) stale (VImg mt))) ∧
    trace s' = trace s ++ reads ∧
    opt s' = opt s ∧ fs s' = fs s ∧ heap s' = heap s ∧ test_metrics s' = test_metrics s ∧
    (∀ x, x ≠ "i" → x ≠ "name" → x ≠ "virtual_stain_mask" → x ≠ "fluorescence_mask" →
          x ≠ "image_sets" → globals s' !! x = globals s !! x).
Proof.
  induction count as [|count IH]; intros i s acc Him Gp Gt Gs Gm Hf Lp Lt Fp Ft.
  { exists s, [], []. simpl. rewrite !app_nil_r. repeat (split; [done|]).
    split; [intros; lia|done]. }
  destruct (lookup_lt_is_Some_2 pms i) as [p Hp]; [lia|].
  destruct (lookup_lt_is_Some_2 tms i) as [t Ht]; [lia|].
  destruct (proj1 (Forall_lookup _ _) Fp i p Hp) as [mp Ip].
  destruct (proj1 (Forall_lookup _ _) Ft i t Ht) as [mt It].
  pose proof It as It'.
  apply image_at_file in Ip as (fp & Fip & Ip).
  apply image_at_file in It as (ft & Fit & It).
  assert (Hp' : map VPath pms !! i = Some (VPath p)).
  { change (map VPath pms) with (VPath <$> pms). by rewrite list_lookup_fmap, Hp. }
  assert (Ht' : map VPath tms !! i = Some (VPath t)).
  { change (map VPath tms) with (VPath <$> tms). by rewrite list_lookup_fmap, Ht. }
  destruct Him as [im Him].
  destruct s as [g o h f tm tr]. cbn [globals opt fs trace heap test_metrics] in *. subst f.
  eassert (Hstep : Evaluate.scoring_loop i (S count) (mkState g o h files tm tr)
                   = Evaluate.scoring_loop (S i) count _).
  { cbn [Evaluate.scoring_loop]. run. reflexivity. }
  rewrite Hstep. clear Hstep.
  edestruct (IH (S i)) as (s' & new & reads & E & Hs & Hl & Hnew & Htr & Ho & Hf & Hh & Hm & Hb);
    [| | | | | | | | | |exists s'; eexists (_ :: new); eexists; split; [exact E|]];
    cbn [globals fs]; lookups; try done; try lia; eauto.
  cbn [globals opt fs trace heap test_metrics] in *.
  split; [by rewrite ?Hs, <- app_assoc|].
  split; [simpl; by rewrite Hl|].
  split; [|split; [by rewrite Htr, <- !app_assoc|]].
  - intros [|j] q u mu Hq Hu Hmu Hj; simpl.
    + rewrite Nat.add_0_r in Hq, Hu. simplify_eq. done.
    + rewrite Nat.add_succ_r in Hq, Hu. eapply Hnew; eauto. lia.
  - repeat (split; [done|]). intros key ? ? ? ? ?. rewrite Hb by done. other_key key.
Qed.


(** ** Part 4: the sampler cell *)


(** ** Task 3.1: the figure of random samples *)

Lemma show_sample_run percentile lp lt lv ap at_ av np nt nv rp rt rv i idx s :
  is_Some (globals s !! "np") →
  heap s !! lp = Some ap → heap s !! lt = Some at_ → heap s !! lv = Some av →
  shape ap = np :: rp → shape at_ = nt :: rt → shape av = nv :: rv →
  idx < np → idx < nt → idx < nv →
  Plot.show_sample percentile lp lt lv i idx s
    = Ok tt (set_trace (λ t, t ++ sample_calls percentile at_ lp lt lv i idx) s).
Proof.
  intros [x Hx] Hp Ht Hv Sp St Sv Ip%Nat.ltb_lt It%Nat.ltb_lt Iv%Nat.ltb_lt.
  destruct s as [g o h f tm tr]. cbn [globals heap] in *.
  unfold Plot.show_sample, Plot.np_percentile, Plot.subscript, Plot.panel, view_data.
  run. cbv [set_trace trace globals opt heap fs test_metrics sample_calls].
  by rewrite <- !app_assoc.
Qed.

Lemma show_samples_run percentile lp lt lv ap at_ av np nt nv rp rt rv : ∀ idxs i s,
  is_Some (globals s !! "np") →
  heap s !! lp = Some ap → heap s !! lt = Some at_ → heap s !! lv = Some av →
  shape ap = np :: rp → shape at_ = nt :: rt → shape av = nv :: rv →
  Forall (λ idx, idx < np ∧ idx < nt ∧ idx < nv) idxs →
  Plot.show_samples percentile lp lt lv i idxs s
    = Ok tt (set_trace (λ t, t ++ samples_calls percentile at_ lp lt lv i idxs) s).
Proof.
  induction idxs as [|idx idxs IH]; intros i s Hn Hp Ht Hv Sp St Sv HF; simpl.
  { destruct s as [g o h f tm tr]. cbv [ret set_trace trace globals opt heap fs test_metrics].
    by rewrite app_nil_r. }
  apply Forall_cons in HF as [(? & ? & ?) HF].
  unfold bind.
  rewrite (show_sample_run percentile lp lt lv ap at_ av np nt nv rp rt rv i idx s) by done.
  rewrite IH; try done; try by destruct s as [g o h f tm tr].
  destruct s as [g o h f tm tr]. cbv [set_trace trace globals opt heap fs test_metrics].
  by rewrite <- app_assoc.
Qed.

(** X18: [visualise_results] on three stacks, the first of [n] images with
    [n] positive and the others at least as long, with [plt] and [np]
    imported: the call returns [None]; it draws [n]-bounded indices five
    times, with replacement, whatever [n] is, and shows five rows of three
    panels, phase, target and virtual stain of the same sampled index; the
    intensity window of the virtual-stain panel is the 1st and 99th
    percentile of the target image, the same as for the target panel.  The
    module namespace, the arrays, the files and the metric rows are as they
    were. *)
Theorem visualise_results_shows_five_samples draw percentile s lp lt lv ap at_ av
    n nt nv rp rt rv :
  is_Some (globals s !! "plt") → is_Some (globals s !! "np") →
  heap s !! lp = Some ap → heap s !! lt = Some at_ → heap s !! lv = Some av →
  shape ap = n :: rp → shape at_ = nt :: rt → shape av = nv :: rv →
  0 < n → n ≤ nt → n ≤ nv →
  ∃ s', Plot.visualise_results draw percentile lp lt lv s = Ok VNone s' ∧
        trace s' = trace s ++
          [EvCall "plt.subplots" [VInt 5; VInt 3];
           EvCall "np.random.choice" [VInt (Z.of_nat n); VInt 5]]
          ++ samples_calls percentile at_ lp lt lv 0 (map (λ k, draw k mod n) (seq 0 5))
          ++ [EvCall "plt.tight_layout" []; EvCall "plt.show" []] ∧
        Forall (λ idx, idx < n) (map (λ k, draw k mod n) (seq 0 5)) ∧
        globals s' = globals s ∧ heap s' = heap s ∧ fs s' = fs s ∧ opt s' = opt s ∧
        test_metrics s' = test_metrics s.
Proof.
  intros [pl Hpl] Hnp Hp Ht Hv Sp St Sv Hn Hnt Hnv.
  assert (HF : Forall (λ idx, idx < n) (map (λ k, draw k mod n) (seq 0 5))).
  { apply Forall_map, Forall_forall. intros k _. simpl. apply Nat.mod_upper_bound. lia. }
  pose proof Hnp as [np Hnp'].
  assert (Hz : (n =? 0) = false) by (apply Nat.eqb_neq; lia).
  destruct s as [g o h f tm tr]. cbn [globals heap fs opt trace test_metrics] in *.
  eexists. split.
  { unfold Plot.visualise_results, Plot.array_len, Plot.np_random_choice.
    run.
    rewrite (show_samples_run percentile lp lt lv ap at_ av n nt nv rp rt rv); try done.
    - cbv beta iota. cbv [set_trace trace globals opt heap fs test_metrics]. run. reflexivity.
    - eapply Forall_impl; [exact HF|]. intros idx Hidx. simpl in Hidx. lia. }
  cbv [globals heap fs opt trace test_metrics].
  split; [|done].
  rewrite <- !app_assoc. reflexivity.
Qed.

(** X19: [visualise_results] on an empty stack of phase images: the figure
    is created, then [np.random.choice(0, 5)] raises [ValueError]; no panel
    is shown and [plt.show] is not reached. *)
Theorem visualise_results_needs_an_image draw percentile s lp lt lv ap rp :
  is_Some (globals s !! "plt") → is_Some (globals s !! "np") →
  heap s !! lp = Some ap → shape ap = 0 :: rp →
  ∃ s', Plot.visualise_results draw percentile lp lt lv s
          = Raise (ValueError "a must be greater than 0 unless no samples are taken") s' ∧
        trace s' = trace s ++
          [EvCall "plt.subplots" [VInt 5; VInt 3];
           EvCall "np.random.choice" [VInt 0; VInt 5]].
Proof.
  intros [pl Hpl] [np Hnp] Hp Sp.
  destruct s as [g o h f tm tr]. cbn [globals heap fs opt trace test_metrics] in *.
  eexists. split.
  { unfold Plot.visualise_results, Plot.array_len, Plot.np_random_choice.
    run. reflexivity. }
  cbv [trace]. by rewrite <- !app_assoc.
Qed.

(** ** The further properties on concrete runs *)





Lemma scoring_stops_witness :
  ∃ s', Evaluate.scoring_cell Cases.masked = Raise (NameError "virtal_stain_mask") s' ∧
        globals s' !! "image_sets" = Some (VList []).
Proof.
  destruct (scoring_stops_at_the_misspelt_name Cases.masked
              ["results"; "img_0_cp_masks.tif"] ["targets"; "img_0_cp_masks.tif"] [] []
              (mkArr [1; 1] [1%Q]) (mkArr [1; 1] [2%Q]))
    as (s' & H & _ & _ & Hs & _).
  1-2: vm_compute; eauto.
  1-5: vm_compute; reflexivity.
  exists s'. split; [exact H|exact Hs].
Defined.




Lemma visualise_results_witness :
  ∃ s', Plot.visualise_results (λ k, k) (λ _ _, NaN) 2 1 0 Cases.small_stacks = Ok VNone s' ∧
        heap s' = heap Cases.small_stacks.
Proof.
  destruct (visualise_results_shows_five_samples (λ k, k) (λ _ _, NaN) Cases.small_stacks
              2 1 0 (Np.zeros [2; 1; 2]) (mkArr [2; 1; 2] [5%Q; 6%Q; 7%Q; 8%Q])
              (mkArr [2; 1; 2] [1%Q; 2%Q; 3%Q; 4%Q]) 2 2 2 [1; 2] [1; 2] [1; 2])
    as (s' & H & _ & _ & _ & Hh & _).
  1-2: vm_compute; eauto.
  1-6: reflexivity.
  1-3: lia.
  exists s'. split; [exact H|exact Hh].
Defined.

Lemma visualise_results_empty_witness :
  ∃ s', Plot.visualise_results (λ k, k) (λ _ _, NaN) 2 1 0 Cases.empty_stacks
          = Raise (ValueError "a must be greater than 0 unless no samples are taken") s'.
Proof.
  destruct (visualise_results_needs_an_image (λ k, k) (λ _ _, NaN) Cases.empty_stacks
              2 1 0 (Np.zeros [0; 1; 2]) [1; 2])
    as (s' & H & _).
  1-2: vm_compute; eauto.
  1-2: reflexivity.
  exists s'. exact H.
Defined.

(** ** Part 3: a turn of the loading loop that fails *)

Lemma setitem_misfit a n rest i v :
  shape a = n :: rest → i < n → Np.assignable (shape v) rest = false →
  Np.setitem a (Z.of_nat i) v = Raises (ValueError "could not broadcast input array").
Proof.
  intros Hs Hi Hf. unfold Np.setitem. rewrite Hs.
  assert (Hb : Np.broadcast v rest = None).
  { unfold Np.assignable in Hf. unfold Np.broadcast.
    destruct (Np.aligned (shape v) rest); [by rewrite Hf|done]. }
  rewrite Hb.
  destruct (Z.ltb_spec (Z.of_nat i) 0); [lia|].
  destruct (Z.leb_spec 0 (Z.of_nat i)); [|lia].
  by destruct (Z.ltb_spec (Z.of_nat i) (Z.of_nat n)); [|lia].
Qed.

(** X20: one turn of the loop of lines 397-406 reads its three files, in the
    order virtual stain, phase, target, before it writes anything, and the
    phase image is the first to be stored.  When the phase image has a shape
    numpy does not accept for a 512 by 512 slot, the turn raises
    [ValueError] after the three reads and none of the three stacks has been
    written. *)
Theorem a_turn_reads_three_files_before_it_writes n lv lt lp i v t p imgv imgt imgp s :
  stacked n lv lt lp s → i < n →
  image_at (fs s) v = Some imgv → image_at (fs s) t = Some imgt →
  image_at (fs s) p = Some imgp →
  Np.assignable (shape imgp) [512; 512] = false →
  ∃ s', Evaluate.load_body i (VPath v, VPath t, VPath p) s
          = Raise (ValueError "could not broadcast input array") s' ∧
        heap s' = heap s ∧
        trace s' = trace s ++ [EvCall "imread" [VPath v]; EvCall "imread" [VPath p];
                               EvCall "imread" [VPath t]].
Proof.
  intros [Gv Gt Gp [rd Gi] _ _ (ap & Hp & Sp & _) _ _ _] Hi Iv It Ip Hfit.
  destruct s as [g o h f tm tr]. cbn [globals heap fs trace] in *.
  apply image_at_file in Iv as (fv & Fv & Iv).
  apply image_at_file in It as (ft & Ft & It).
  apply image_at_file in Ip as (fp & Fp & Ip).
  pose proof (setitem_misfit ap n [512; 512] i imgp Sp Hi Hfit) as Hset.
  clear Sp.
  eexists. split; [unfold Evaluate.load_body; run; reflexivity|].
  cbv [heap trace]. split; [done|]. by rewrite <- !app_assoc.
Qed.

Lemma a_turn_witness :
  ∃ s', Evaluate.load_body 1 (VPath ["v.tiff"], VPath ["t.tiff"], VPath ["p.tiff"])
          Cases.before_a_turn
          = Raise (ValueError "could not broadcast input array") s' ∧
        heap s' = heap Cases.before_a_turn.
Proof.
  destruct (a_turn_reads_three_files_before_it_writes 2 0 1 2 1
              ["v.tiff"] ["t.tiff"] ["p.tiff"]
              (mkArr [1; 1] [1%Q]) (mkArr [1; 1] [2%Q]) (mkArr [2; 2] [3%Q; 3%Q; 3%Q; 3%Q])
              Cases.before_a_turn)
    as (s' & H & Hh & _).
  { split.
    1-3: reflexivity.
    1: by eexists.
    1-3: eexists; (split; [reflexivity|]); (split; [reflexivity|apply zeros_well_formed]).
    all: lia. }
  { lia. }
  1-4: reflexivity.
  exists s'. split; [exact H|exact Hh].
Defined.
